(** * Reflect: a shallow embedding of [reflect.go]

    [reflect.go] is a small name server built on the [miekg/dns] package.
    [handleReflect] sends back to a client its own address, port and
    transport; [handleSqlite] answers from an SQLite table.  The two handlers
    are embedded below as functions from their inputs (the response writer,
    the inbound message, the global counter) to the list of effects they
    perform and the way they end.  *)

From Stdlib Require Import ZArith List String Ascii Bool Lia.
From Stdlib Require Import DecimalString.
Import ListNotations.
Open Scope Z_scope.

(** ** Go primitives *)

Module Go.

(** Go's [int] on the 64-bit platforms: a 64-bit two's complement integer. *)
Definition int_max : Z := 2 ^ 63 - 1.
Definition int_min : Z := - 2 ^ 63.
Definition uint64_max : Z := 2 ^ 64 - 1.

(** Arithmetic on [int] wraps around. *)
Definition wrap_int (z : Z) : Z := (z + 2 ^ 63) mod 2 ^ 64 - 2 ^ 63.

(** A byte is an 8-bit [Z]; the conversion [byte(n)] keeps the low 8 bits. *)
Definition byte : Type := Z.
Definition byte_of_int (n : Z) : byte := n mod 256.

(** An [error] value is its message; [None] is [nil]. *)
Definition error : Type := option string.

Definition nl : string := String (ascii_of_nat 10) EmptyString.

(** [strconv.Itoa]. *)
Definition Itoa (n : Z) : string := NilZero.string_of_int (Z.to_int n).

(** [strconv.ErrSyntax] and [strconv.ErrRange]. *)
Definition ErrSyntax : string := "invalid syntax".
Definition ErrRange : string := "value out of range".

Definition digit_of (c : ascii) : option Z :=
  let n := Z.of_N (N_of_ascii c) in
  if (48 <=? n) && (n <=? 57) then Some (n - 48) else None.

Inductive scan : Type :=
| ScanOk (n : Z)
| ScanSyntax
| ScanRange.

(** The digit loop of [strconv.ParseUint] in base 10: the first character
    that is no digit gives a syntax error, the first overflow of 64 bits a
    range error. *)
Fixpoint scan_digits (s : string) (n : Z) : scan :=
  match s with
  | EmptyString => ScanOk n
  | String c s' =>
      match digit_of c with
      | None => ScanSyntax
      | Some d =>
          if n * 10 + d >? uint64_max then ScanRange
          else scan_digits s' (n * 10 + d)
      end
  end.

(** [strconv.Atoi]: the value and the error.  On a syntax error the value is
    0, on a range error it is the nearest bound of [int]. *)
Definition Atoi (s : string) : Z * error :=
  match s with
  | EmptyString => (0, Some ErrSyntax)
  | String c rest =>
      let neg := Ascii.eqb c "-" in
      let body := if neg || Ascii.eqb c "+" then rest else s in
      match body with
      | EmptyString => (0, Some ErrSyntax)
      | _ =>
          match scan_digits body 0 with
          | ScanSyntax => (0, Some ErrSyntax)
          | ScanRange =>
              (if neg then int_min else int_max, Some ErrRange)
          | ScanOk un =>
              if negb neg && (un >? int_max)
              then (int_max, Some ErrRange)
              else if neg && (un >? - int_min)
              then (int_min, Some ErrRange)
              else (if neg then - un else un, None)
          end
      end
  end.

(** [strings.Split s sep] for a separator of one character: the pieces
    between the separators, a single empty piece for the empty string. *)
Fixpoint Split (s : string) (sep : ascii) : list string :=
  match s with
  | EmptyString => [EmptyString]
  | String c s' =>
      if Ascii.eqb c sep then EmptyString :: Split s' sep
      else match Split s' sep with
           | [] => [String c EmptyString]
           | piece :: pieces => String c piece :: pieces
           end
  end.

(** ** [net.IP] *)

(** An IP address is a slice of bytes, of length 4 or 16 when well formed;
    the [nil] slice is the empty list. *)
Definition IP : Type := list byte.

Definition v4InV6Prefix : list byte :=
  [0; 0; 0; 0; 0; 0; 0; 0; 0; 0; 255; 255].

(** [net.IPv4 a b c d]: the 16-byte form of the IPv4 address. *)
Definition IPv4 (a b c d : byte) : IP := v4InV6Prefix ++ [a; b; c; d].

Definition isZeros (p : list byte) : bool := forallb (Z.eqb 0) p.

(** [ip.To4()]: the 4-byte form of an IPv4 address, [None] ([nil]) when
    [ip] is no IPv4 address. *)
Definition To4 (ip : IP) : option IP :=
  if (List.length ip =? 4)%nat then Some ip
  else if (List.length ip =? 16)%nat
          && isZeros (firstn 10 ip)
          && (nth 10 ip 0 =? 255)
          && (nth 11 ip 0 =? 255)
  then Some (firstn 4 (skipn 12 ip))
  else None.

(** [net.Addr] as the code inspects it: a [*net.UDPAddr], a [*net.TCPAddr],
    or an address of another kind, which neither type assertion accepts. *)
Inductive Addr : Type :=
| UDPAddr (ip : IP) (port : Z)
| TCPAddr (ip : IP) (port : Z)
| OtherAddr.

End Go.

(** ** The part of [miekg/dns] the handlers use

    The package is a dependency of the repository and no part of it; its
    types and functions are modelled after its documentation, as far as the
    handlers use them. *)

Module Dns.
Import Go.

(** Record types, classes and the TSIG algorithm name, with their values in
    the DNS protocol. *)
Definition TypeA : Z := 1.
Definition TypeSOA : Z := 6.
Definition TypeTXT : Z := 16.
Definition TypeAAAA : Z := 28.
Definition TypeTSIG : Z := 250.
Definition TypeIXFR : Z := 251.
Definition TypeAXFR : Z := 252.
Definition TypeANY : Z := 255.
Definition ClassINET : Z := 1.
Definition ClassANY : Z := 255.
Definition OpcodeQuery : Z := 0.
Definition RcodeSuccess : Z := 0.
Definition HmacMD5 : string := "hmac-md5.sig-alg.reg.int.".

Record RR_Header : Type := mkHdr
  { Name : string; Rrtype : Z; Class : Z; Ttl : Z }.

Record TSIG : Type := mkTSIG
  { TsigHdr : RR_Header;
    Algorithm : string;
    TimeSigned : Z;
    Fudge : Z;
    MAC : string;
    OrigId : Z }.

Record SOA : Type := mkSOA
  { SoaHdr : RR_Header;
    SoaNs : string;
    Mbox : string;
    Serial : Z;
    Refresh : Z;
    Retry : Z;
    Expire : Z;
    Minttl : Z }.

(** [dns.RR]: the record kinds the handlers build or inspect, and one
    constructor for every other kind a decoded message may carry. *)
Inductive RR : Type :=
| RR_A (Hdr : RR_Header) (A : IP)
| RR_AAAA (Hdr : RR_Header) (AAAA : IP)
| RR_TXT (Hdr : RR_Header) (Txt : list string)
| RR_SOA (soa : SOA)
| RR_ANY (Hdr : RR_Header)
| RR_TSIG (tsig : TSIG)
| RR_Other (Hdr : RR_Header) (rdata : string).

(** [rr.Header()]. *)
Definition Header (rr : RR) : RR_Header :=
  match rr with
  | RR_A h _ | RR_AAAA h _ | RR_TXT h _ | RR_ANY h | RR_Other h _ => h
  | RR_SOA s => SoaHdr s
  | RR_TSIG t => TsigHdr t
  end.

Record DnsQuestion : Type := mkQuestion
  { QName : string; Qtype : Z; Qclass : Z }.

(** [dns.Msg]: the header bits the handlers touch, the compression flag and
    the four sections. *)
Record Msg : Type := mkMsg
  { Id : Z;
    Response : bool;
    Opcode : Z;
    Authoritative : bool;
    Truncated : bool;
    RecursionDesired : bool;
    Rcode : Z;
    Compress : bool;
    Question : list DnsQuestion;
    Answer : list RR;
    Ns : list RR;
    Extra : list RR }.

(** [new(dns.Msg)]: every field at its zero value. *)
Definition newMsg : Msg :=
  mkMsg 0 false 0 false false false 0 false [] [] [] [].

Definition set_Compress (m : Msg) (b : bool) : Msg :=
  mkMsg (Id m) (Response m) (Opcode m) (Authoritative m) (Truncated m)
        (RecursionDesired m) (Rcode m) b (Question m) (Answer m) (Ns m)
        (Extra m).

Definition set_Truncated (m : Msg) (b : bool) : Msg :=
  mkMsg (Id m) (Response m) (Opcode m) (Authoritative m) b
        (RecursionDesired m) (Rcode m) (Compress m) (Question m) (Answer m)
        (Ns m) (Extra m).

Definition set_Answer (m : Msg) (l : list RR) : Msg :=
  mkMsg (Id m) (Response m) (Opcode m) (Authoritative m) (Truncated m)
        (RecursionDesired m) (Rcode m) (Compress m) (Question m) l (Ns m)
        (Extra m).

Definition set_Extra (m : Msg) (l : list RR) : Msg :=
  mkMsg (Id m) (Response m) (Opcode m) (Authoritative m) (Truncated m)
        (RecursionDesired m) (Rcode m) (Compress m) (Question m) (Answer m)
        (Ns m) l.

(** [m.SetReply(request)] on a message [m]: the reply takes the request's
    id and recursion-desired bit, is marked as a response, and copies the
    first question when there is one.  The other sections are untouched.
    This is the function of the library of the file's time, the one whose
    [dns.Server] has the field [Pool]; later versions give the reply the
    opcode of the request and copy the recursion-desired bit for the opcode
    QUERY only, and treat the sections alike. *)
Definition SetReply (m request : Msg) : Msg :=
  mkMsg (Id request) true OpcodeQuery (Authoritative m) (Truncated m)
        (RecursionDesired request) RcodeSuccess (Compress m)
        (match Question request with
         | [] => Question m
         | q :: _ => [q]
         end)
        (Answer m) (Ns m) (Extra m).

(** [m.IsTsig()]: the last record of the extra section when its header says
    TSIG, [None] ([nil]) otherwise.  The decoder builds each record's
    variant from its header type, so in a decoded message a header of type
    TSIG sits on a TSIG record; for a record whose header and variant
    disagree the answer here is [None]. *)
Definition IsTsig (m : Msg) : option TSIG :=
  match rev (Extra m) with
  | [] => None
  | rr :: _ =>
      if Rrtype (Header rr) =? TypeTSIG
      then match rr with RR_TSIG t => Some t | _ => None end
      else None
  end.

(** [m.SetTsig(z, algo, fudge, timesigned)]: appends a TSIG record for key
    [z] to the extra section; the MAC is filled in when the message is
    written. *)
Definition SetTsig (m : Msg) (z algo : string) (fudge timesigned : Z) : Msg :=
  set_Extra m
    (Extra m ++
     [RR_TSIG (mkTSIG (mkHdr z TypeTSIG ClassANY 0) algo timesigned fudge
                      EmptyString (Id m))]).

(** The record [dns.NewRR] parses from the zone-file line
    [whoami.miek.nl. 0 IN SOA linode.atoom.net. miek.miek.nl. 2009032802
    21600 7200 604800 3600]. *)
Definition whoami_soa : RR :=
  RR_SOA (mkSOA (mkHdr "whoami.miek.nl." TypeSOA ClassINET 0)
                "linode.atoom.net." "miek.miek.nl."
                2009032802 21600 7200 604800 3600).

End Dns.

(** ** The handlers of [reflect.go] *)

Module Reflect.
Import Go Dns.

Definition dom : string := "whoami.miek.nl.".

(** The command-line flags [main] parses, read by the handlers through the
    global pointers [printf] and [compress]. *)
Record Flags : Type := mkFlags
  { printf : bool; compress : bool; pool : bool; tsig : string }.

(** What a handler sees of its [dns.ResponseWriter]: the address of the
    client, the outcome of the server's TSIG check of the request
    ([TsigStatus], [None] when the check passed or none was made), and the
    key table of the server that owns the writer. *)
Record ResponseWriter : Type := mkWriter
  { RemoteAddr : Addr;
    TsigStatus : error;
    TsigSecret : list (string * string) }.

(** What the handler reads from outside during one call: the clock
    ([time.Now().Unix()]) and the error [tr.Out] returns. *)
Record World : Type := mkWorld
  { Now : Z; TransferOut : error }.

(** The effects of a handler, in the order they happen. *)
Inductive Event : Type :=
| EvStdout (s : string)           (* fmt.Printf *)
| EvStderr (s : string)           (* println *)
| EvWriteMsg (m : Msg)            (* w.WriteMsg(m) *)
| EvWrite (buf : list byte)       (* w.Write(buf) *)
| EvEnvelope (rrs : list RR)      (* c <- &dns.Envelope{RR: rrs} *)
| EvHijack                        (* w.Hijack() *)
| EvClose.                        (* the deferred close(c) *)

(** How a call ends: it returns, it panics (an index out of range), or the
    process exits in [log.Fatal]. *)
Inductive Outcome : Type :=
| Returned
| Panicked
| Exited.

Definition orNil (o : option IP) : IP :=
  match o with Some ip => ip | None => [] end.

Definition isNil (o : option IP) : bool :=
  match o with Some _ => false | None => true end.

(** [serve]: a server without key table when the key name is empty, with
    the table of the one key otherwise. *)
Definition serve_TsigSecret (name secret : string) : list (string * string) :=
  if String.eqb name "" then [] else [(name, secret)].

Section Handlers.

(** [m.Pack()] and [m.String()] of the library: the wire form of a message
    with the packing error, and its text form. *)
Variable Pack : Msg -> list byte * error.
Variable MsgString : Msg -> string.

Variable flags : Flags.
Variable world : World.

(** Lines 203-221 of [handleReflect]: TSIG, the optional dump, and the
    transmission of the reply [m] to the request [r]. *)
Definition reflectSend (w : ResponseWriter) (r m : Msg)
  : list Event * Outcome :=
  let '(m, status) :=
    match IsTsig r with
    | Some t =>
        match TsigStatus w with
        | None => (SetTsig m (Name (TsigHdr t)) HmacMD5 300 (Now world), [])
        | Some e => (m, [EvStderr ("Status " ++ e ++ nl)%string])
        end
    | None => (m, [])
    end in
  let dump :=
    if printf flags then [EvStdout (MsgString m ++ nl)%string] else [] in
  match Question m with
  | [] => (status ++ dump, Panicked)
  | q :: _ =>
      if String.eqb (QName q) "tc.miek.nl." then
        let m := set_Truncated m true in
        let buf := fst (Pack m) in
        (status ++ dump ++ [EvWrite (firstn (List.length buf / 2) buf)],
         Returned)
      else (status ++ dump ++ [EvWriteMsg m], Returned)
  end.

(** [handleReflect w r] run with the global [reflectHandled] at the given
    value: the new value of the counter, the effects, and the outcome. *)
Definition handleReflect (w : ResponseWriter) (r : Msg) (reflectHandled : Z)
  : Z * list Event * Outcome :=
  let reflectHandled := wrap_int (reflectHandled + 1) in
  let served :=
    if Z.rem reflectHandled 1000 =? 0
    then [EvStdout ("Served " ++ Itoa reflectHandled ++ " reflections"
                      ++ nl)%string]
    else [] in
  let m := set_Compress (SetReply newMsg r) (compress flags) in
  let '(str, a, v4) :=
    match RemoteAddr w with
    | UDPAddr ip port =>
        (("Port: " ++ Itoa port ++ " (udp)")%string, ip, negb (isNil (To4 ip)))
    | TCPAddr ip port =>
        (("Port: " ++ Itoa port ++ " (tcp)")%string, ip, negb (isNil (To4 ip)))
    | OtherAddr => (EmptyString, [], false)
    end in
  let rr :=
    if v4 : bool
    then RR_A (mkHdr dom TypeA ClassINET 0) (orNil (To4 a))
    else RR_AAAA (mkHdr dom TypeAAAA ClassINET 0) a in
  let t := RR_TXT (mkHdr dom TypeTXT ClassINET 0) [str] in
  match Question r with
  | [] => (reflectHandled, served, Panicked)
  | q :: _ =>
      let address_first :=
        let m := set_Answer m (Answer m ++ [rr]) in
        let m := set_Extra m (Extra m ++ [t]) in
        let '(evs, out) := reflectSend w r m in
        (reflectHandled, served ++ evs, out) in
      if Qtype q =? TypeTXT then
        let m := set_Answer m (Answer m ++ [t]) in
        let m := set_Extra m (Extra m ++ [rr]) in
        let '(evs, out) := reflectSend w r m in
        (reflectHandled, served ++ evs, out)
      else if (Qtype q =? TypeAAAA) || (Qtype q =? TypeA) then
        address_first
      else if (Qtype q =? TypeAXFR) || (Qtype q =? TypeIXFR) then
        match TransferOut world with
        | Some _ => (reflectHandled, served ++ [EvClose], Returned)
        | None =>
            let soa := whoami_soa in
            (reflectHandled,
             served ++ [EvEnvelope [soa; t; rr; soa]; EvHijack; EvClose],
             Returned)
        end
      else (* default: falls through to the case of AAAA and A *)
        address_first
  end.

End Handlers.

(** *** The record store *)

(** A row of the table [records] in the SQLite file: name, type, ttl and
    rdata. *)
Record Row : Type := mkRow
  { row_name : string; row_type : string; row_ttl : Z; row_rdata : string }.

(** The database as [lookUpNameInDb] meets it: [db_err] is the error of
    opening it, of beginning the transaction or of preparing the statement
    ([None] when the three succeed), [records] the rows of the table.  The
    query and the scan of a well-typed row are taken to succeed. *)
Record Db : Type := mkDb
  { db_err : error; records : list Row }.

Definition row_matches (name rrtype : string) (row : Row) : bool :=
  String.eqb (row_name row) name && String.eqb (row_type row) rrtype.

(** [lookUpNameInDb name rrtype]: [None] when the function ends the process
    in [log.Fatal]; otherwise the named results [ttl], [rdata] and [err].
    The loop scans every selected row into the results, so the last row
    wins, and with no row the results keep their zero values 0 and the
    empty string, with a [nil] error. *)
Definition lookUpNameInDb (db : Db) (name rrtype : string)
  : option (Z * string * error) :=
  match db_err db with
  | Some _ => None
  | None =>
      Some (fold_left
              (fun (acc : Z * string * error) (row : Row) =>
                 (row_ttl row, row_rdata row, None))
              (filter (row_matches name rrtype) (records db))
              (0, EmptyString, None))
  end.

(** [octets[i] = v] on an array: out of range the assignment panics. *)
Fixpoint assign (octets : list byte) (i : nat) (v : byte)
  : option (list byte) :=
  match octets, i with
  | [], _ => None
  | _ :: rest, O => Some (v :: rest)
  | o :: rest, S i' =>
      match assign rest i' v with
      | Some rest' => Some (o :: rest')
      | None => None
      end
  end.

(** The loop of [handleSqlite] over the pieces of the rdata, from index
    [i]: each piece is converted with [strconv.Atoi], whose error is
    dropped, and stored as a byte.  [None] is the panic of an index out of
    range. *)
Fixpoint fill_octets (stringOctets : list string) (i : nat)
  (octets : list byte) : option (list byte) :=
  match stringOctets with
  | [] => Some octets
  | s :: rest =>
      match assign octets i (byte_of_int (fst (Atoi s))) with
      | Some octets' => fill_octets rest (S i) octets'
      | None => None
      end
  end.

(** [handleSqlite w r]: the effects and the outcome. *)
Definition handleSqlite (db : Db) (w : ResponseWriter) (r : Msg)
  : list Event * Outcome :=
  let m := SetReply newMsg r in
  match Question r with
  | [] => ([], Panicked)
  | q :: _ =>
      let n := QName q in
      if Qtype q =? TypeA then
        match lookUpNameInDb db (QName q) "A" with
        | None => ([], Exited)
        | Some (ttl, rdata, Some _) => ([], Exited)
        | Some (ttl, rdata, None) =>
            match fill_octets (Split rdata ".") 0 [0; 0; 0; 0] with
            | None => ([], Panicked)
            | Some octets =>
                let rr :=
                  RR_A (mkHdr n TypeA ClassINET (ttl mod 2 ^ 32))
                       (orNil (To4 (IPv4 (nth 0 octets 0) (nth 1 octets 0)
                                         (nth 2 octets 0) (nth 3 octets 0)))) in
                let m := set_Answer m (Answer m) in
                ([EvWriteMsg (set_Answer m (Answer m ++ [rr]))], Returned)
            end
        end
      else
        let rr := RR_ANY (mkHdr n TypeANY ClassINET 60) in
        ([EvWriteMsg (set_Answer m (Answer m ++ [rr]))], Returned)
  end.

End Reflect.

(** ** The counter under concurrent handlers *)

Module Race.
Import Go.

(** [main] starts the two servers with [go serve("tcp", ...)] and
    [go serve("udp", ...)], and every query runs its handler in a goroutine
    of its own.  The first statements of [handleReflect],
    [reflectHandled += 1] and the test [reflectHandled%1000 == 0], touch
    the global variable with no lock and no atomic operation: a goroutine
    reads it, writes the sum back, and reads it again for the test.  A
    goroutine is at one of these points, or past the counter with the
    progress line it printed, if any. *)
Inductive Thread : Type :=
| Ready
| Loaded (v : Z)
| Stored
| Counted (progress : option Z).

(** One step of a goroutine on the shared counter [g]. *)
Definition step (g : Z) (t : Thread) : option (Z * Thread) :=
  match t with
  | Ready => Some (g, Loaded g)
  | Loaded v => Some (wrap_int (v + 1), Stored)
  | Stored =>
      Some (g, Counted (if Z.rem g 1000 =? 0 then Some g else None))
  | Counted _ => None
  end.

(** One step of goroutine number [i] among [ts]. *)
Fixpoint step_at (i : nat) (g : Z) (ts : list Thread)
  : option (Z * list Thread) :=
  match ts, i with
  | [], _ => None
  | t :: rest, O =>
      match step g t with
      | Some (g', t') => Some (g', t' :: rest)
      | None => None
      end
  | t :: rest, S i' =>
      match step_at i' g rest with
      | Some (g', rest') => Some (g', t :: rest')
      | None => None
      end
  end.

(** A schedule names the goroutine that takes each step in turn. *)
Fixpoint run (schedule : list nat) (g : Z) (ts : list Thread)
  : option (Z * list Thread) :=
  match schedule with
  | [] => Some (g, ts)
  | i :: schedule' =>
      match step_at i g ts with
      | Some (g', ts') => run schedule' g' ts'
      | None => None
      end
  end.

Definition counted (t : Thread) : bool :=
  match t with Counted _ => true | _ => false end.

(** The schedule that runs [n] goroutines from number [i] on one after the
    other, each through its three steps. *)
Fixpoint one_by_one (i n : nat) : list nat :=
  match n with
  | O => []
  | S n' => i :: i :: i :: one_by_one (S i) n'
  end.

End Race.

(** ** What the handlers are specified to do *)

Module ReflectSpec.
Import Go Dns Reflect.

(** The effects that put something on the wire. *)
Definition is_sent (e : Event) : bool :=
  match e with
  | EvWriteMsg _ | EvWrite _ | EvEnvelope _ => true
  | _ => false
  end.

Definition sent (evs : list Event) : list Event := filter is_sent evs.

(** The effects of the zone-transfer path. *)
Definition is_transfer_effect (e : Event) : bool :=
  match e with
  | EvEnvelope _ | EvHijack | EvClose => true
  | _ => false
  end.

(** The first half of a buffer, [buf[:len(buf)/2]]. *)
Definition half (buf : list byte) : list byte :=
  firstn (List.length buf / 2) buf.

Definition is_address (rr : RR) : bool :=
  match rr with RR_A _ _ | RR_AAAA _ _ => true | _ => false end.

Definition is_txt (rr : RR) : bool :=
  match rr with RR_TXT _ _ => true | _ => false end.

Definition is_tsig (rr : RR) : bool :=
  match rr with RR_TSIG _ => true | _ => false end.

(** The session of the specification: transport kind, remote address and
    remote port. *)
Inductive Transport : Type := Datagram | Stream.

Definition transport_name (k : Transport) : string :=
  match k with Datagram => "udp" | Stream => "tcp" end.

Definition session (a : Addr) : option (Transport * IP * Z) :=
  match a with
  | UDPAddr ip port => Some (Datagram, ip, port)
  | TCPAddr ip port => Some (Stream, ip, port)
  | OtherAddr => None
  end.

(** The text [Port: <port> (<udp|tcp>)] of the specification. *)
Definition port_text (k : Transport) (port : Z) : string :=
  ("Port: " ++ Itoa port ++ " (" ++ transport_name k ++ ")")%string.

(** The address and the text the handler reads off the client's address. *)
Definition remote_ip (a : Addr) : IP :=
  match a with
  | UDPAddr ip _ | TCPAddr ip _ => ip
  | OtherAddr => []
  end.

Definition remote_text (a : Addr) : string :=
  match session a with
  | Some (k, _, port) => port_text k port
  | None => EmptyString
  end.

(** The address record of the specification: an A record with the four
    bytes of an IPv4 address, an AAAA record with the address otherwise;
    TTL 0. *)
Definition self_address (ip : IP) : RR :=
  match To4 ip with
  | Some ip4 => RR_A (mkHdr dom TypeA ClassINET 0) ip4
  | None => RR_AAAA (mkHdr dom TypeAAAA ClassINET 0) ip
  end.

(** The TXT record of the specification; TTL 0. *)
Definition self_txt (text : string) : RR :=
  RR_TXT (mkHdr dom TypeTXT ClassINET 0) [text].

Definition is_transfer (qtype : Z) : bool :=
  (qtype =? TypeAXFR) || (qtype =? TypeIXFR).

(** The progress line for the count [n], and the lines printed when the
    count reaches [n]. *)
Definition progress_line (n : Z) : Event :=
  EvStdout ("Served " ++ Itoa n ++ " reflections" ++ nl)%string.

Definition progress (n : Z) : list Event :=
  if Z.rem n 1000 =? 0 then [progress_line n] else [].

Definition is_tc (q : DnsQuestion) : bool :=
  String.eqb (QName q) "tc.miek.nl.".

(** The record of the specification for a lookup miss: an empty record of
    type ANY with TTL 60. *)
Definition any_record (name : string) : RR :=
  RR_ANY (mkHdr name TypeANY ClassINET 60).

Definition events (res : Z * list Event * Outcome) : list Event :=
  snd (fst res).

Section Replies.

Variable Pack : Msg -> list byte * error.
Variable MsgString : Msg -> string.
Variable flags : Flags.
Variable world : World.

(** The TSIG record the handler appends to a reply: one when the request
    carries a TSIG record and the server reports no verification error,
    none otherwise. *)
Definition signature (w : ResponseWriter) (r : Msg) : list RR :=
  match IsTsig r, TsigStatus w with
  | Some t, None =>
      [RR_TSIG (mkTSIG (mkHdr (Name (TsigHdr t)) TypeTSIG ClassANY 0)
                       HmacMD5 (Now world) 300 EmptyString (Id r))]
  | _, _ => []
  end.

(** The line written for a failed verification. *)
Definition status_log (w : ResponseWriter) (r : Msg) : list Event :=
  match IsTsig r, TsigStatus w with
  | Some _, Some e => [EvStderr ("Status " ++ e ++ nl)%string]
  | _, _ => []
  end.

(** The reply to [r], whose first question is [q], with the given answer
    and extra records and truncated flag. *)
Definition reply_of (w : ResponseWriter) (r : Msg) (q : DnsQuestion)
  (answer extra : list RR) (tc : bool) : Msg :=
  mkMsg (Id r) true OpcodeQuery false tc (RecursionDesired r) RcodeSuccess
        (compress flags) [q] answer [] (extra ++ signature w r).

Definition dump (m : Msg) : list Event :=
  if printf flags then [EvStdout (MsgString m ++ nl)%string] else [].

(** The reply of the specification to the request [r] with first question
    [q], of a type other than AXFR and IXFR: the TXT record answers a TXT
    query and the address record goes to the extra section, the other types
    get them the other way round; the truncated flag is set for the
    truncation-test name. *)
Definition reflect_reply (w : ResponseWriter) (r : Msg) (q : DnsQuestion)
  : Msg :=
  let address := self_address (remote_ip (RemoteAddr w)) in
  let text := self_txt (remote_text (RemoteAddr w)) in
  reply_of w r q
           (if Qtype q =? TypeTXT then [text] else [address])
           (if Qtype q =? TypeTXT then [address] else [text])
           (is_tc q).

(** A handler's effects transmit the reply [m]: the one thing they put on
    the wire is [m] in full, or the first half of the wire form of [m]. *)
Definition transmits (evs : list Event) (m : Msg) : Prop :=
  sent evs = [EvWriteMsg m] \/ sent evs = [EvWrite (half (fst (Pack m)))].

(** The handler called on one request after the other, the counter going
    from each call to the next: the last count, and the effects and outcome
    of each call. *)
Fixpoint handle_all (reqs : list (ResponseWriter * Msg)) (g : Z)
  : Z * list (list Event * Outcome) :=
  match reqs with
  | [] => (g, [])
  | (w, r) :: reqs' =>
      let '(g', evs, out) := handleReflect Pack MsgString flags world w r g in
      let '(last, results) := handle_all reqs' g' in
      (last, (evs, out) :: results)
  end.

End Replies.

End ReflectSpec.

(** ** The sentences of the specification the code does not satisfy

    Each definition states one sentence as the specification words it; the
    theorems further down refute it on an input and prove what holds
    instead. *)

Module Stated.
Import Go Dns Reflect Race ReflectSpec.

(** A TXT query is answered with exactly the TXT record in the answer
    section and exactly the address record in the extra section. *)
Definition txt_sections_exact : Prop :=
  forall Pack MsgString flags world w r g q qs k ip port,
    Question r = q :: qs ->
    Qtype q = TypeTXT ->
    session (RemoteAddr w) = Some (k, ip, port) ->
    exists m,
      transmits Pack (events (handleReflect Pack MsgString flags world w r g)) m
      /\ Answer m = [self_txt (port_text k port)]
      /\ Extra m = [self_address ip].

(** Every query for the truncation-test name is answered with the first
    half of the wire form of a reply whose truncated flag is set. *)
Definition tc_name_always_halved : Prop :=
  forall Pack MsgString flags world w r g q qs,
    Question r = q :: qs ->
    QName q = "tc.miek.nl."%string ->
    exists m,
      Truncated m = true
      /\ sent (events (handleReflect Pack MsgString flags world w r g))
         = [EvWrite (half (fst (Pack m)))].

(** The reply is signed whenever a key is configured, or the verification
    of the request succeeded. *)
Definition signed_when_key_configured : Prop :=
  forall Pack MsgString flags world w r g q qs,
    Question r = q :: qs ->
    is_transfer (Qtype q) = false ->
    TsigSecret w <> [] \/ (IsTsig r <> None /\ TsigStatus w = None) ->
    exists m t,
      transmits Pack (events (handleReflect Pack MsgString flags world w r g)) m
      /\ In (RR_TSIG t) (Extra m)
      /\ Algorithm t = HmacMD5 /\ Fudge t = 300 /\ TimeSigned t = Now world.

(** A query whose lookup finds no row is answered with the ANY record. *)
Definition miss_answered_with_any : Prop :=
  forall db w r q qs,
    Question r = q :: qs ->
    Qtype q = TypeA ->
    db_err db = None ->
    filter (row_matches (QName q) "A") (records db) = [] ->
    exists m,
      handleSqlite db w r = ([EvWriteMsg m], Returned)
      /\ Answer m = [any_record (QName q)].

(** An AXFR or IXFR query over UDP never enters the zone-transfer path. *)
Definition datagram_never_transfers : Prop :=
  forall Pack MsgString flags world w r g q qs ip port,
    Question r = q :: qs ->
    is_transfer (Qtype q) = true ->
    RemoteAddr w = UDPAddr ip port ->
    filter is_transfer_effect
           (events (handleReflect Pack MsgString flags world w r g)) = [].

(** Whenever the request carries a TSIG record that fails verification, the
    failure is logged and an unsigned reply is sent. *)
Definition tsig_failure_always_logged : Prop :=
  forall Pack MsgString flags world w r g q qs t e,
    Question r = q :: qs ->
    IsTsig r = Some t ->
    TsigStatus w = Some e ->
    In (EvStderr ("Status " ++ e ++ nl)%string)
       (events (handleReflect Pack MsgString flags world w r g))
    /\ exists m,
         transmits Pack (events (handleReflect Pack MsgString flags world w r g)) m
         /\ filter is_tsig (Extra m) = [].

(** However the steps of [n] concurrent handlers interleave, once all of
    them are past the counter it has grown by [n]. *)
Definition no_lost_update : Prop :=
  forall schedule n g g' ts,
    0 <= g -> g + Z.of_nat n <= int_max ->
    run schedule g (repeat Ready n) = Some (g', ts) ->
    forallb counted ts = true ->
    g' = g + Z.of_nat n.

End Stated.

(** ** Inputs for the examples *)

Module Examples.
Import Go Dns Reflect ReflectSpec.

(** A packing for the examples: the twelve bytes of the message header. *)
Definition header_pack (m : Msg) : list byte * error :=
  ([Id m / 256 mod 256; Id m mod 256;
    (if Response m then 128 else 0) + (if Truncated m then 2 else 0)
    + (if RecursionDesired m then 1 else 0);
    Rcode m mod 16;
    0; Z.of_nat (List.length (Question m));
    0; Z.of_nat (List.length (Answer m));
    0; Z.of_nat (List.length (Ns m));
    0; Z.of_nat (List.length (Extra m))],
   None).

(** A text form for the examples: the id of the message. *)
Definition show (m : Msg) : string := Itoa (Id m).

Definition quiet : Flags := mkFlags false false false EmptyString.

Definition clock : World := mkWorld 1700000000 None.

Definition key_table : list (string * string) :=
  serve_TsigSecret "key." "c2VjcmV0".

Definition udp4 : ResponseWriter :=
  mkWriter (UDPAddr [203; 0; 113; 7] 40000) None [].

Definition tcp4 : ResponseWriter :=
  mkWriter (TCPAddr [203; 0; 113; 7] 40001) None [].

Definition tcp6 : ResponseWriter :=
  mkWriter (TCPAddr [32; 1; 13; 184; 0; 0; 0; 0; 0; 0; 0; 0; 0; 0; 0; 1] 53124)
           None [].

Definition keyed_udp4 : ResponseWriter :=
  mkWriter (UDPAddr [203; 0; 113; 7] 40000) None key_table.

Definition rejecting_tcp4 : ResponseWriter :=
  mkWriter (TCPAddr [203; 0; 113; 7] 40001)
           (Some "dns: bad signature"%string) key_table.

Definition query (name : string) (qtype : Z) : Msg :=
  mkMsg 7 false OpcodeQuery false false true RcodeSuccess false
        [mkQuestion name qtype ClassINET] [] [] [].

Definition key_record : RR :=
  RR_TSIG (mkTSIG (mkHdr "key." TypeTSIG ClassANY 0) HmacMD5 1699999990 300
                  "bWFj" 7).

Definition signed_query (name : string) (qtype : Z) : Msg :=
  set_Extra (query name qtype) [key_record].

Definition no_question : Msg :=
  mkMsg 7 false OpcodeQuery false false true RcodeSuccess false [] [] [] [].

Definition records_db : Db :=
  mkDb None [mkRow "www.baz.miek.nl." "A" 300 "192.0.2.10"].

End Examples.

(** ** The start of the servers *)

Module Startup.
Import Go Dns Reflect.

(** [strings.SplitN s sep 2] for a separator of one character: the text
    before the first separator and the whole rest after it, or [s] alone
    when it holds no separator. *)
Fixpoint cut (s : string) (sep : ascii) : option (string * string) :=
  match s with
  | EmptyString => None
  | String c s' =>
      if Ascii.eqb c sep then Some (EmptyString, s')
      else match cut s' sep with
           | Some (before, after) => Some (String c before, after)
           | None => None
           end
  end.

Definition SplitN2 (s : string) (sep : ascii) : list string :=
  match cut s sep with
  | Some (before, after) => [before; after]
  | None => [s]
  end.

(** [dns.IsFqdn] and [dns.Fqdn]: a name is fully qualified when its last
    character is a dot; [Fqdn] adds the dot to a name that is not. *)
Fixpoint IsFqdn (s : string) : bool :=
  match s with
  | EmptyString => false
  | String c EmptyString => Ascii.eqb c "."
  | String _ s' => IsFqdn s'
  end.

Definition Fqdn (s : string) : string :=
  if IsFqdn s then s else (s ++ ".")%string.

(** Lines 248-256 of [main]: the key name and the secret read from the flag
    [-tsig].  Both stay empty when the flag is empty; otherwise the flag is
    split at its first colon, and [None] is the panic of [a[1]] when it
    holds no colon. *)
Definition main_key (tsig : string) : option (string * string) :=
  if String.eqb tsig "" then Some (EmptyString, EmptyString)
  else match SplitN2 tsig ":" with
       | a0 :: a1 :: _ => Some (Fqdn a0, a1)
       | _ => None
       end.

(** The key table of the two servers [main] starts with
    [go serve("tcp", name, secret)] and [go serve("udp", name, secret)]. *)
Definition main_TsigSecret (tsig : string) : option (list (string * string)) :=
  match main_key tsig with
  | Some (name, secret) => Some (serve_TsigSecret name secret)
  | None => None
  end.

Fixpoint has_colon (s : string) : bool :=
  match s with
  | EmptyString => false
  | String c s' => Ascii.eqb c ":" || has_colon s'
  end.

End Startup.

(** ** Shapes of records, messages and stored data *)

Module Shape.
Import Go Dns Reflect ReflectSpec.

(** The header of a record names the type of its variant; the handlers build
    no record of another kind. *)
Definition typed (rr : RR) : bool :=
  match rr with
  | RR_A h _ => Rrtype h =? TypeA
  | RR_AAAA h _ => Rrtype h =? TypeAAAA
  | RR_TXT h _ => Rrtype h =? TypeTXT
  | RR_SOA s => Rrtype (SoaHdr s) =? TypeSOA
  | RR_ANY h => Rrtype h =? TypeANY
  | RR_TSIG t => Rrtype (TsigHdr t) =? TypeTSIG
  | RR_Other _ _ => false
  end.

(** The records an effect carries to the client. *)
Definition records_of (e : Event) : list RR :=
  match e with
  | EvWriteMsg m => Answer m ++ Ns m ++ Extra m
  | EvEnvelope rrs => rrs
  | _ => []
  end.

(** In a decoded message the variant of a record is the one its header
    names.  The handler relies on it for the last record of the extra
    section, which [r.IsTsig()] and line 205 take for a TSIG record when
    its header says so. *)
Definition tsig_as_decoded (r : Msg) : bool :=
  match rev (Extra r) with
  | [] => true
  | rr :: _ => if Rrtype (Header rr) =? TypeTSIG then is_tsig rr else true
  end.

(** The number of dots in a text. *)
Fixpoint dots (s : string) : nat :=
  match s with
  | EmptyString => O
  | String c s' => if Ascii.eqb c "." then S (dots s') else dots s'
  end.

(** The byte [handleSqlite] makes of a piece of rdata. *)
Definition octet_of (piece : string) : byte := byte_of_int (fst (Atoi piece)).

(** The four bytes [handleSqlite] makes of an rdata with at most three
    dots: a byte for each piece, and 0 for each piece that is missing. *)
Definition octets_of (rdata : string) : list byte :=
  map octet_of (Split rdata ".") ++ repeat 0 (3 - dots rdata).

(** The dotted-decimal text of four bytes. *)
Definition dotted (a b c d : Z) : string :=
  (Itoa a ++ "." ++ Itoa b ++ "." ++ Itoa c ++ "." ++ Itoa d)%string.

(** The check of one byte value behind the round trip of [dotted]: its
    decimal text holds no dot and [Atoi] reads the value back. *)
Definition byte_text_ok (k : nat) : bool :=
  let n := Z.of_nat k in
  (dots (Itoa n) =? 0)%nat
  && match Atoi (Itoa n) with
     | (v, None) => v =? n
     | (_, Some _) => false
     end.

(** A goroutine is past the write of the counter. *)
Definition past_store (t : Race.Thread) : bool :=
  match t with
  | Race.Stored | Race.Counted _ => true
  | _ => false
  end.

Definition stored (ts : list Race.Thread) : nat :=
  List.length (filter past_store ts).

(** The value a goroutine has read lies between [lo] and [hi]. *)
Definition loaded_within (lo hi : Z) (t : Race.Thread) : Prop :=
  match t with
  | Race.Loaded v => lo <= v <= hi
  | _ => True
  end.

(** A record is owned by the name [whoami.miek.nl.], or is a TSIG record,
    which is owned by its key. *)
Definition owned_by_dom (rr : RR) : bool :=
  is_tsig rr || String.eqb (Name (Header rr)) dom.

(** What every interleaving keeps true of the counter [c] that started at
    [g]: it has grown by the number of goroutines that wrote at most, by
    one at least once one has written, and so have the values read. *)
Definition race_inv (g c : Z) (ts : list Race.Thread) : Prop :=
  g <= c <= g + Z.of_nat (stored ts)
  /\ ((1 <= stored ts)%nat -> g + 1 <= c)
  /\ Forall (loaded_within g (g + Z.of_nat (stored ts))) ts.

End Shape.

(** * Properties *)

Import Go Dns Reflect Race ReflectSpec.

(** ** The two paths of [handleReflect] *)

Section Paths.

Variable Pack : Msg -> list byte * error.
Variable MsgString : Msg -> string.
Variable flags : Flags.
Variable world : World.

(** A request with a question that asks for no zone transfer: the whole
    result of the handler. *)
Lemma handleReflect_reply (w : ResponseWriter) (r : Msg) (g : Z)
  (q : DnsQuestion) (qs : list DnsQuestion) :
  Question r = q :: qs ->
  is_transfer (Qtype q) = false ->
  let address := self_address (remote_ip (RemoteAddr w)) in
  let text := self_txt (remote_text (RemoteAddr w)) in
  let answer := if Qtype q =? TypeTXT then [text] else [address] in
  let extra := if Qtype q =? TypeTXT then [address] else [text] in
  let reply := reply_of flags world w r q answer extra in
  handleReflect Pack MsgString flags world w r g =
    (wrap_int (g + 1),
     progress (wrap_int (g + 1)) ++ status_log w r
       ++ dump MsgString flags (reply false)
       ++ [if is_tc q then EvWrite (half (fst (Pack (reply true))))
           else EvWriteMsg (reply false)],
     Returned).
Proof.
  intros HQ Hx.
  unfold handleReflect, reflectSend, reply_of, signature, status_log,
    dump, is_tc, progress, progress_line, half, self_address, self_txt,
    remote_text, remote_ip, port_text.
  unfold is_transfer in Hx. apply orb_false_iff in Hx. destruct Hx as [Ha Hi].
  destruct r as [id rsp op aa tcb rd rc cmp qsn ans ns ex].
  simpl in HQ. subst qsn.
  destruct w as [addr st sec].
  destruct addr as [ip port | ip port |];
    cbn [RemoteAddr TsigStatus Question SetReply set_Compress newMsg
         Id RecursionDesired Extra session transport_name];
    try destruct (To4 ip) as [ip4 |]; cbn [isNil negb orNil To4 List.length Nat.eqb];
    destruct (Qtype q =? TypeTXT);
    rewrite ?Ha, ?Hi; cbn [orb];
    destruct (Qtype q =? TypeAAAA); cbn [orb];
    destruct (Qtype q =? TypeA); cbn [orb];
    destruct (IsTsig _) as [t |]; destruct st as [e |];
    destruct (printf flags); cbn;
    destruct (String.eqb (QName q) "tc.miek.nl."); reflexivity.
Qed.

(** A request whose question asks for a zone transfer: the whole result of
    the handler. *)
Lemma handleReflect_transfer (w : ResponseWriter) (r : Msg) (g : Z)
  (q : DnsQuestion) (qs : list DnsQuestion) :
  Question r = q :: qs ->
  is_transfer (Qtype q) = true ->
  handleReflect Pack MsgString flags world w r g =
    (wrap_int (g + 1),
     progress (wrap_int (g + 1))
       ++ match TransferOut world with
          | Some _ => [EvClose]
          | None =>
              [EvEnvelope [whoami_soa;
                           self_txt (remote_text (RemoteAddr w));
                           self_address (remote_ip (RemoteAddr w));
                           whoami_soa];
               EvHijack; EvClose]
          end,
     Returned).
Proof.
  intros HQ Hx.
  assert (Ht : (Qtype q =? TypeTXT) = false).
  { unfold is_transfer in Hx. apply orb_true_iff in Hx.
    destruct Hx as [H | H]; apply Z.eqb_eq in H; rewrite H; reflexivity. }
  assert (Hn : (Qtype q =? TypeAAAA) || (Qtype q =? TypeA) = false).
  { unfold is_transfer in Hx. apply orb_true_iff in Hx.
    destruct Hx as [H | H]; apply Z.eqb_eq in H; rewrite H; reflexivity. }
  unfold handleReflect, progress, progress_line, self_address,
    self_txt, remote_text, remote_ip, port_text.
  unfold is_transfer in Hx.
  rewrite HQ, Ht, Hn, Hx.
  destruct w as [addr st sec].
  destruct addr as [ip port | ip port |];
    cbn [RemoteAddr session transport_name];
    try destruct (To4 ip) as [ip4 |]; cbn [isNil negb orNil To4 List.length Nat.eqb];
    destruct (TransferOut world); reflexivity.
Qed.

(** The lines a handler logs put nothing on the wire. *)
Lemma sent_progress (n : Z) : sent (progress n) = [].
Proof. unfold progress. destruct (Z.rem n 1000 =? 0); reflexivity. Qed.

Lemma sent_status_log (w : ResponseWriter) (r : Msg) :
  sent (status_log w r) = [].
Proof.
  unfold status_log.
  destruct (IsTsig r); destruct (TsigStatus w); reflexivity.
Qed.

Lemma sent_dump (m : Msg) : sent (dump MsgString flags m) = [].
Proof. unfold dump. destruct (printf flags); reflexivity. Qed.

Lemma sent_app (l1 l2 : list Event) : sent (l1 ++ l2) = sent l1 ++ sent l2.
Proof. apply filter_app. Qed.

(** What the handler puts on the wire for a request that asks for no zone
    transfer: the reply, or the first half of its wire form with the
    truncated flag set. *)
Lemma handleReflect_sent (w : ResponseWriter) (r : Msg) (g : Z)
  (q : DnsQuestion) (qs : list DnsQuestion) :
  Question r = q :: qs ->
  is_transfer (Qtype q) = false ->
  let address := self_address (remote_ip (RemoteAddr w)) in
  let text := self_txt (remote_text (RemoteAddr w)) in
  let answer := if Qtype q =? TypeTXT then [text] else [address] in
  let extra := if Qtype q =? TypeTXT then [address] else [text] in
  let reply := reply_of flags world w r q answer extra in
  sent (events (handleReflect Pack MsgString flags world w r g)) =
    [if is_tc q then EvWrite (half (fst (Pack (reply true))))
     else EvWriteMsg (reply false)].
Proof.
  intros HQ Hx. cbv zeta.
  rewrite (handleReflect_reply w r g q qs HQ Hx).
  unfold events. cbn [fst snd].
  rewrite !sent_app, sent_progress, sent_status_log, sent_dump.
  destruct (is_tc q); reflexivity.
Qed.

End Paths.

(** ** The address and the port sent back *)

(** [To4] answers with four bytes or with nothing. *)
Lemma To4_length (ip ip4 : IP) : To4 ip = Some ip4 -> List.length ip4 = 4%nat.
Proof.
  unfold To4.
  destruct (List.length ip =? 4)%nat eqn:H4.
  - intros [= <-]. now apply Nat.eqb_eq.
  - destruct (List.length ip =? 16)%nat eqn:H16; cbn [andb]; [| discriminate].
    destruct (isZeros (firstn 10 ip) && (nth 10 ip 0 =? 255)
              && (nth 11 ip 0 =? 255)); [| discriminate].
    intros Heq. assert (Hip : ip4 = firstn 4 (skipn 12 ip)) by congruence.
    apply Nat.eqb_eq in H16.
    rewrite Hip, length_firstn, length_skipn, H16. reflexivity.
Qed.

Lemma remote_of_session (a : Addr) (k : Transport) (ip : IP) (port : Z) :
  session a = Some (k, ip, port) ->
  remote_ip a = ip /\ remote_text a = port_text k port.
Proof.
  unfold remote_text.
  destruct a as [ip' port' | ip' port' |]; cbn [session remote_ip];
    intros [= <- <- <-]; split; reflexivity.
Qed.

Lemma not_transfer (qtype : Z) :
  qtype <> TypeAXFR -> qtype <> TypeIXFR -> is_transfer qtype = false.
Proof.
  intros Ha Hi. unfold is_transfer.
  apply orb_false_iff. split; now apply Z.eqb_neq.
Qed.

Lemma self_address_is_address (ip : IP) : is_address (self_address ip) = true.
Proof. unfold self_address. destruct (To4 ip); reflexivity. Qed.

Lemma self_address_not_tsig (ip : IP) : is_tsig (self_address ip) = false.
Proof. unfold self_address. destruct (To4 ip); reflexivity. Qed.

(** The signature is empty or one TSIG record. *)
Lemma signature_cases (world : World) (w : ResponseWriter) (r : Msg) :
  signature world w r = [] \/ exists t, signature world w r = [RR_TSIG t].
Proof.
  unfold signature.
  destruct (IsTsig r) as [t |]; [destruct (TsigStatus w) |]; eauto.
Qed.

(** The reply the handler transmits for a request that asks for no zone
    transfer is the reply of the specification. *)
Lemma handleReflect_transmits Pack MsgString flags world
  (w : ResponseWriter) (r : Msg) (g : Z)
  (q : DnsQuestion) (qs : list DnsQuestion) :
  Question r = q :: qs ->
  is_transfer (Qtype q) = false ->
  transmits Pack (events (handleReflect Pack MsgString flags world w r g))
            (reflect_reply flags world w r q).
Proof.
  intros HQ Hx. unfold transmits, reflect_reply.
  rewrite (handleReflect_sent Pack MsgString flags world w r g q qs HQ Hx).
  destruct (is_tc q); [right | left]; reflexivity.
Qed.

Lemma reflect_reply_session flags world (w : ResponseWriter) (r : Msg)
  (q : DnsQuestion) (k : Transport) (ip : IP) (port : Z) :
  session (RemoteAddr w) = Some (k, ip, port) ->
  reflect_reply flags world w r q
  = reply_of flags world w r q
      (if Qtype q =? TypeTXT then [self_txt (port_text k port)]
       else [self_address ip])
      (if Qtype q =? TypeTXT then [self_address ip]
       else [self_txt (port_text k port)])
      (is_tc q).
Proof.
  intros Hs. destruct (remote_of_session _ _ _ _ Hs) as [Hip Htext].
  unfold reflect_reply. rewrite Hip, Htext. reflexivity.
Qed.

Lemma signature_ttl (world : World) (w : ResponseWriter) (r : Msg) :
  Forall (fun rr => Ttl (Header rr) = 0) (signature world w r).
Proof.
  unfold signature.
  destruct (IsTsig r) as [t |]; [destruct (TsigStatus w) |];
    repeat constructor.
Qed.

Lemma self_address_ttl (ip : IP) : Ttl (Header (self_address ip)) = 0.
Proof. unfold self_address. destruct (To4 ip); reflexivity. Qed.

(** C1.  A reflection query of type A, AAAA or of a type the handler does
    not know, from a client over UDP or TCP, gets the reply of the
    specification, whose answer section is exactly one address record,
    chosen by the client's address and not by the query type: the A record
    with the four bytes of the address when it is an IPv4 address, the AAAA
    record with the address otherwise.  The answer and extra sections
    together hold that one address record, the extra section holds exactly
    one TXT record, with the text [Port: <port> (udp)] or
    [Port: <port> (tcp)] of the client's port and transport, and every
    record of the reply has TTL 0. *)
Theorem reflect_answers_address Pack MsgString flags world
  (w : ResponseWriter) (r : Msg) (g : Z)
  (q : DnsQuestion) (qs : list DnsQuestion)
  (k : Transport) (ip : IP) (port : Z) :
  Question r = q :: qs ->
  Qtype q <> TypeTXT ->
  Qtype q <> TypeAXFR ->
  Qtype q <> TypeIXFR ->
  session (RemoteAddr w) = Some (k, ip, port) ->
  let m := reflect_reply flags world w r q in
  transmits Pack (events (handleReflect Pack MsgString flags world w r g)) m
  /\ Answer m = [self_address ip]
  /\ filter is_address (Answer m ++ Extra m) = [self_address ip]
  /\ filter is_txt (Extra m) = [self_txt (port_text k port)]
  /\ (Extra m = [self_txt (port_text k port)]
      \/ exists t, Extra m = [self_txt (port_text k port); RR_TSIG t])
  /\ Forall (fun rr => Ttl (Header rr) = 0) (Answer m ++ Extra m)
  /\ match To4 ip with
     | Some ip4 =>
         self_address ip = RR_A (mkHdr dom TypeA ClassINET 0) ip4
         /\ List.length ip4 = 4%nat
     | None => self_address ip = RR_AAAA (mkHdr dom TypeAAAA ClassINET 0) ip
     end.
Proof.
  intros HQ Ht Ha Hi Hs.
  pose proof (not_transfer _ Ha Hi) as Hx.
  pose proof (handleReflect_transmits Pack MsgString flags world w r g q qs
                HQ Hx) as Hm.
  cbv zeta. rewrite (reflect_reply_session flags world w r q k ip port Hs) in *.
  apply Z.eqb_neq in Ht. rewrite Ht in *.
  split; [exact Hm |].
  cbn [reply_of Answer Extra app].
  repeat split.
  - cbn [filter]. rewrite self_address_is_address. cbn [is_address].
    destruct (signature_cases world w r) as [-> | [t ->]]; reflexivity.
  - cbn [filter is_txt].
    destruct (signature_cases world w r) as [-> | [t ->]]; reflexivity.
  - destruct (signature_cases world w r) as [-> | [t ->]]; eauto.
  - constructor; [apply self_address_ttl |].
    constructor; [reflexivity | apply signature_ttl].
  - unfold self_address. destruct (To4 ip) as [ip4 |] eqn:H4; [| reflexivity].
    split; [reflexivity | exact (To4_length ip ip4 H4)].
Qed.

(** An A query from 203.0.113.7, UDP port 40000. *)
Lemma reflect_answers_address_witness :
  let m := reflect_reply Examples.quiet Examples.clock Examples.udp4
                         (Examples.query dom TypeA)
                         (mkQuestion dom TypeA ClassINET) in
  transmits Examples.header_pack
    (events (handleReflect Examples.header_pack Examples.show Examples.quiet
               Examples.clock Examples.udp4 (Examples.query dom TypeA) 0)) m
  /\ Answer m = [RR_A (mkHdr dom TypeA ClassINET 0) [203; 0; 113; 7]]
  /\ Extra m = [RR_TXT (mkHdr dom TypeTXT ClassINET 0) ["Port: 40000 (udp)"%string]].
Proof.
  destruct (reflect_answers_address Examples.header_pack Examples.show
              Examples.quiet Examples.clock Examples.udp4
              (Examples.query dom TypeA) 0
              (mkQuestion dom TypeA ClassINET) [] Datagram [203; 0; 113; 7]
              40000)
    as [Hm [Ha _]]; try reflexivity; try discriminate.
  split; [exact Hm |]. split; [exact Ha | reflexivity].
Defined.

(** ** TXT queries *)

(** C2, as the specification states it, fails: the reply to a TXT query that
    carries a verified TSIG record has two records in its extra section,
    the address record and the TSIG record of the reply. *)
Lemma txt_sections_exact_fails :
  let m := reflect_reply Examples.quiet Examples.clock Examples.udp4
                         (Examples.signed_query dom TypeTXT)
                         (mkQuestion dom TypeTXT ClassINET) in
  sent (events (handleReflect Examples.header_pack Examples.show Examples.quiet
                  Examples.clock Examples.udp4
                  (Examples.signed_query dom TypeTXT) 0))
  = [EvWriteMsg m]
  /\ Extra m
     = [RR_A (mkHdr dom TypeA ClassINET 0) [203; 0; 113; 7];
        RR_TSIG (mkTSIG (mkHdr "key." TypeTSIG ClassANY 0) HmacMD5 1700000000
                        300 EmptyString 7)]
  /\ ~ Stated.txt_sections_exact.
Proof.
  cbv zeta. split; [reflexivity |]. split; [reflexivity |].
  intro H.
  destruct (H Examples.header_pack Examples.show Examples.quiet Examples.clock
              Examples.udp4 (Examples.signed_query dom TypeTXT) 0
              (mkQuestion dom TypeTXT ClassINET) [] Datagram [203; 0; 113; 7]
              40000 eq_refl eq_refl eq_refl)
    as [m [[Hs | Hs] [_ He]]].
  - vm_compute in Hs. injection Hs as <-. vm_compute in He. discriminate He.
  - vm_compute in Hs. discriminate Hs.
Qed.

(** C2, amended.  A reflection query of type TXT gets the reply of the
    specification, whose answer section is exactly the TXT record and whose
    extra section is the address record, followed by the TSIG record of the
    reply when the reply is signed and by nothing otherwise.  The two
    records are those of the reply to an A, AAAA or unknown-type query from
    the same client, which holds them the other way round. *)
Theorem reflect_txt_swaps_sections Pack MsgString flags world
  (w : ResponseWriter) (r r' : Msg) (g g' : Z)
  (q q' : DnsQuestion) (qs qs' : list DnsQuestion)
  (k : Transport) (ip : IP) (port : Z) :
  session (RemoteAddr w) = Some (k, ip, port) ->
  Question r = q :: qs ->
  Qtype q = TypeTXT ->
  Question r' = q' :: qs' ->
  Qtype q' <> TypeTXT ->
  is_transfer (Qtype q') = false ->
  let m := reflect_reply flags world w r q in
  let m' := reflect_reply flags world w r' q' in
  transmits Pack (events (handleReflect Pack MsgString flags world w r g)) m
  /\ transmits Pack
       (events (handleReflect Pack MsgString flags world w r' g')) m'
  /\ Answer m = [self_txt (port_text k port)]
  /\ Extra m = self_address ip :: signature world w r
  /\ Answer m' = [self_address ip]
  /\ Extra m' = self_txt (port_text k port) :: signature world w r'.
Proof.
  intros Hs HQ Ht HQ' Ht' Hx'.
  assert (Hx : is_transfer (Qtype q) = false) by (rewrite Ht; reflexivity).
  pose proof (handleReflect_transmits Pack MsgString flags world w r g q qs
                HQ Hx) as Hm.
  pose proof (handleReflect_transmits Pack MsgString flags world w r' g' q' qs'
                HQ' Hx') as Hm'.
  cbv zeta.
  rewrite (reflect_reply_session flags world w r q k ip port Hs) in *.
  rewrite (reflect_reply_session flags world w r' q' k ip port Hs) in *.
  apply Z.eqb_neq in Ht'. rewrite Ht' in *.
  rewrite Ht in *. cbn [Z.eqb TypeTXT Pos.eqb] in *.
  split; [exact Hm |]. split; [exact Hm' |].
  repeat split.
Qed.

(** A TXT query and an AAAA query from the same UDP client. *)
Lemma reflect_txt_swaps_sections_witness :
  let m := reflect_reply Examples.quiet Examples.clock Examples.udp4
                         (Examples.query dom TypeTXT)
                         (mkQuestion dom TypeTXT ClassINET) in
  let m' := reflect_reply Examples.quiet Examples.clock Examples.udp4
                          (Examples.query dom TypeAAAA)
                          (mkQuestion dom TypeAAAA ClassINET) in
  transmits Examples.header_pack
    (events (handleReflect Examples.header_pack Examples.show Examples.quiet
               Examples.clock Examples.udp4 (Examples.query dom TypeTXT) 0)) m
  /\ transmits Examples.header_pack
       (events (handleReflect Examples.header_pack Examples.show
                  Examples.quiet Examples.clock Examples.udp4
                  (Examples.query dom TypeAAAA) 1)) m'
  /\ Answer m = Extra m'
  /\ Extra m = Answer m'.
Proof.
  destruct (reflect_txt_swaps_sections Examples.header_pack Examples.show
              Examples.quiet Examples.clock Examples.udp4
              (Examples.query dom TypeTXT) (Examples.query dom TypeAAAA) 0 1
              (mkQuestion dom TypeTXT ClassINET)
              (mkQuestion dom TypeAAAA ClassINET) [] []
              Datagram [203; 0; 113; 7] 40000)
    as [Hm [Hm' _]];
    try reflexivity; try discriminate.
  split; [exact Hm |]. split; [exact Hm' |]. split; reflexivity.
Defined.

(** ** The truncation test *)

(** C3, as the specification states it, fails: an AXFR query for the
    truncation-test name goes down the zone-transfer path, which sends the
    envelope and returns before the truncation test is reached. *)
Lemma tc_name_always_halved_fails :
  handleReflect Examples.header_pack Examples.show Examples.quiet
                Examples.clock Examples.tcp4
                (Examples.query "tc.miek.nl." TypeAXFR) 0
  = (1,
     [EvEnvelope [whoami_soa;
                  RR_TXT (mkHdr dom TypeTXT ClassINET 0)
                         ["Port: 40001 (tcp)"%string];
                  RR_A (mkHdr dom TypeA ClassINET 0) [203; 0; 113; 7];
                  whoami_soa];
      EvHijack; EvClose],
     Returned)
  /\ ~ Stated.tc_name_always_halved.
Proof.
  split; [reflexivity |].
  intro H.
  destruct (H Examples.header_pack Examples.show Examples.quiet Examples.clock
              Examples.tcp4 (Examples.query "tc.miek.nl." TypeAXFR) 0
              (mkQuestion "tc.miek.nl." TypeAXFR ClassINET) []
              eq_refl eq_refl)
    as [m [_ Hs]].
  vm_compute in Hs. discriminate Hs.
Qed.

(** C3, amended.  A reflection query for the name [tc.miek.nl.] of a type
    other than AXFR and IXFR gets the reply of the specification with the
    truncated flag set, of which the handler writes the first half of the
    wire form, the floor of half its length in bytes, and nothing else: the
    rest is never sent. *)
Theorem reflect_truncation_test Pack MsgString flags world
  (w : ResponseWriter) (r : Msg) (g : Z)
  (q : DnsQuestion) (qs : list DnsQuestion) :
  Question r = q :: qs ->
  QName q = "tc.miek.nl."%string ->
  is_transfer (Qtype q) = false ->
  let m := reflect_reply flags world w r q in
  Truncated m = true
  /\ sent (events (handleReflect Pack MsgString flags world w r g))
     = [EvWrite (half (fst (Pack m)))]
  /\ List.length (half (fst (Pack m)))
     = (List.length (fst (Pack m)) / 2)%nat.
Proof.
  intros HQ Hn Hx.
  pose proof (handleReflect_sent Pack MsgString flags world w r g q qs HQ Hx)
    as Hs.
  cbv zeta in *. unfold reflect_reply.
  assert (Htc : is_tc q = true) by (unfold is_tc; rewrite Hn; reflexivity).
  rewrite Htc in *.
  split; [reflexivity |]. split; [exact Hs |].
  unfold half. rewrite length_firstn.
  apply Nat.min_l. apply Nat.Div0.div_le_upper_bound. lia.
Qed.

(** An A query for [tc.miek.nl.]: six of the twelve bytes are written. *)
Lemma reflect_truncation_test_witness :
  let m := reflect_reply Examples.quiet Examples.clock Examples.udp4
                         (Examples.query "tc.miek.nl." TypeA)
                         (mkQuestion "tc.miek.nl." TypeA ClassINET) in
  Truncated m = true
  /\ sent (events (handleReflect Examples.header_pack Examples.show
                     Examples.quiet Examples.clock Examples.udp4
                     (Examples.query "tc.miek.nl." TypeA) 0))
     = [EvWrite [0; 7; 131; 0; 0; 1]]
  /\ List.length (fst (Examples.header_pack m)) = 12%nat.
Proof.
  destruct (reflect_truncation_test Examples.header_pack Examples.show
              Examples.quiet Examples.clock Examples.udp4
              (Examples.query "tc.miek.nl." TypeA) 0
              (mkQuestion "tc.miek.nl." TypeA ClassINET) []
              eq_refl eq_refl eq_refl)
    as [Ht [Hs _]].
  split; [exact Ht |]. split; [exact Hs | reflexivity].
Defined.

(** ** Zone transfers *)

(** C4.  For an AXFR or IXFR query over TCP the one thing the handler
    sends is a single envelope with the records SOA, TXT, address, SOA in
    this order: it begins and ends with the same SOA record and has exactly
    two records in between.  The handler then hijacks the connection and
    returns; it writes no reply message.  [tr.Out] has returned [nil] by
    then, as the [Out] of the library does once it has started the
    goroutine that writes the envelopes: the handler alone sends on the
    channel and closes it, both after [Out] has returned. *)
Theorem reflect_transfer_envelope Pack MsgString flags world
  (w : ResponseWriter) (r : Msg) (g : Z)
  (q : DnsQuestion) (qs : list DnsQuestion) (ip : IP) (port : Z) :
  Question r = q :: qs ->
  is_transfer (Qtype q) = true ->
  RemoteAddr w = TCPAddr ip port ->
  TransferOut world = None ->
  let res := handleReflect Pack MsgString flags world w r g in
  sent (events res)
  = [EvEnvelope ([whoami_soa]
                   ++ [self_txt (port_text Stream port); self_address ip]
                   ++ [whoami_soa])]
  /\ In EvHijack (events res)
  /\ snd res = Returned.
Proof.
  intros HQ Hx Hw Ho. cbv zeta.
  rewrite (handleReflect_transfer Pack MsgString flags world w r g q qs HQ Hx).
  rewrite Ho, Hw. unfold events. cbn [fst snd].
  rewrite sent_app, sent_progress.
  repeat split.
  apply in_or_app. right. cbn. auto.
Qed.

(** An IXFR query over TCP from an IPv6 client. *)
Lemma reflect_transfer_envelope_witness :
  sent (events (handleReflect Examples.header_pack Examples.show Examples.quiet
                  Examples.clock Examples.tcp6 (Examples.query dom TypeIXFR) 0))
  = [EvEnvelope
       [whoami_soa;
        self_txt "Port: 53124 (tcp)";
        RR_AAAA (mkHdr dom TypeAAAA ClassINET 0)
                [32; 1; 13; 184; 0; 0; 0; 0; 0; 0; 0; 0; 0; 0; 0; 1];
        whoami_soa]].
Proof.
  exact (proj1 (reflect_transfer_envelope Examples.header_pack Examples.show
                  Examples.quiet Examples.clock Examples.tcp6
                  (Examples.query dom TypeIXFR) 0
                  (mkQuestion dom TypeIXFR ClassINET) []
                  [32; 1; 13; 184; 0; 0; 0; 0; 0; 0; 0; 0; 0; 0; 0; 1] 53124
                  eq_refl eq_refl eq_refl eq_refl)).
Defined.

(** C7, as the specification states it, fails: the handler does not look at
    the transport before it enters the zone-transfer path, and an AXFR query
    over UDP is sent the envelope like one over TCP. *)
Lemma datagram_never_transfers_fails :
  handleReflect Examples.header_pack Examples.show Examples.quiet
                Examples.clock Examples.udp4 (Examples.query dom TypeAXFR) 0
  = (1,
     [EvEnvelope [whoami_soa;
                  RR_TXT (mkHdr dom TypeTXT ClassINET 0)
                         ["Port: 40000 (udp)"%string];
                  RR_A (mkHdr dom TypeA ClassINET 0) [203; 0; 113; 7];
                  whoami_soa];
      EvHijack; EvClose],
     Returned)
  /\ ~ Stated.datagram_never_transfers.
Proof.
  split; [reflexivity |].
  intro H.
  pose proof (H Examples.header_pack Examples.show Examples.quiet
                Examples.clock Examples.udp4 (Examples.query dom TypeAXFR) 0
                (mkQuestion dom TypeAXFR ClassINET) [] [203; 0; 113; 7] 40000
                eq_refl eq_refl eq_refl) as Hs.
  vm_compute in Hs. discriminate Hs.
Qed.

(** C7, amended.  [handleReflect] enters the zone-transfer path for every
    AXFR or IXFR query, over UDP as over TCP: for such a query from a UDP
    client it calls [tr.Out], and unless that fails it sends the envelope
    SOA, TXT, address, SOA and hijacks the connection; in both cases it
    writes no reply message. *)
Theorem reflect_transfer_over_udp Pack MsgString flags world
  (w : ResponseWriter) (r : Msg) (g : Z)
  (q : DnsQuestion) (qs : list DnsQuestion) (ip : IP) (port : Z) :
  Question r = q :: qs ->
  is_transfer (Qtype q) = true ->
  RemoteAddr w = UDPAddr ip port ->
  handleReflect Pack MsgString flags world w r g =
    (wrap_int (g + 1),
     progress (wrap_int (g + 1))
       ++ match TransferOut world with
          | Some _ => [EvClose]
          | None =>
              [EvEnvelope [whoami_soa; self_txt (port_text Datagram port);
                           self_address ip; whoami_soa];
               EvHijack; EvClose]
          end,
     Returned).
Proof.
  intros HQ Hx Hw.
  rewrite (handleReflect_transfer Pack MsgString flags world w r g q qs HQ Hx).
  rewrite Hw. reflexivity.
Qed.

(** An AXFR query over UDP. *)
Lemma reflect_transfer_over_udp_witness :
  filter is_transfer_effect
    (events (handleReflect Examples.header_pack Examples.show Examples.quiet
               Examples.clock Examples.udp4 (Examples.query dom TypeAXFR) 0))
  = [EvEnvelope [whoami_soa; self_txt "Port: 40000 (udp)";
                 RR_A (mkHdr dom TypeA ClassINET 0) [203; 0; 113; 7];
                 whoami_soa];
     EvHijack; EvClose].
Proof.
  rewrite (reflect_transfer_over_udp Examples.header_pack Examples.show
             Examples.quiet Examples.clock Examples.udp4
             (Examples.query dom TypeAXFR) 0
             (mkQuestion dom TypeAXFR ClassINET) [] [203; 0; 113; 7] 40000
             eq_refl eq_refl eq_refl).
  reflexivity.
Defined.

(** ** TSIG *)

(** C5, as the specification states it, fails: with a key configured, the
    reply to a request that carries no TSIG record is not signed. *)
Lemma signed_when_key_configured_fails :
  let m := reflect_reply Examples.quiet Examples.clock Examples.keyed_udp4
                         (Examples.query dom TypeA)
                         (mkQuestion dom TypeA ClassINET) in
  TsigSecret Examples.keyed_udp4 = [("key."%string, "c2VjcmV0"%string)]
  /\ handleReflect Examples.header_pack Examples.show Examples.quiet
                   Examples.clock Examples.keyed_udp4
                   (Examples.query dom TypeA) 0
     = (1, [EvWriteMsg m], Returned)
  /\ Extra m
     = [RR_TXT (mkHdr dom TypeTXT ClassINET 0) ["Port: 40000 (udp)"%string]]
  /\ ~ Stated.signed_when_key_configured.
Proof.
  cbv zeta. repeat (split; [reflexivity |]).
  intro H.
  destruct (H Examples.header_pack Examples.show Examples.quiet Examples.clock
              Examples.keyed_udp4 (Examples.query dom TypeA) 0
              (mkQuestion dom TypeA ClassINET) [] eq_refl eq_refl)
    as [m [t [[Hs | Hs] [Hin _]]]].
  - left. discriminate.
  - vm_compute in Hs. injection Hs as <-.
    cbn in Hin. destruct Hin as [Hin | []]. discriminate Hin.
  - vm_compute in Hs. discriminate Hs.
Qed.

(** C5, amended.  The reply to a query other than AXFR and IXFR is signed
    exactly when the request carries a TSIG record and the server reports no
    verification error: the handler then appends to the extra section one
    TSIG record for the key name of the request, with the algorithm
    HMAC-MD5, a fudge of 300 seconds and the current time.  In every other
    case the reply holds no TSIG record, whether or not a key is
    configured. *)
Theorem reflect_signs_verified Pack MsgString flags world
  (w : ResponseWriter) (r : Msg) (g : Z)
  (q : DnsQuestion) (qs : list DnsQuestion) :
  Question r = q :: qs ->
  is_transfer (Qtype q) = false ->
  let m := reflect_reply flags world w r q in
  transmits Pack (events (handleReflect Pack MsgString flags world w r g)) m
  /\ match IsTsig r, TsigStatus w with
     | Some t, None =>
         exists rrs,
           Extra m
           = rrs ++ [RR_TSIG (mkTSIG (mkHdr (Name (TsigHdr t)) TypeTSIG
                                            ClassANY 0)
                                     HmacMD5 (Now world) 300 EmptyString
                                     (Id r))]
           /\ filter is_tsig rrs = []
     | _, _ => filter is_tsig (Extra m) = []
     end.
Proof.
  intros HQ Hx.
  pose proof (handleReflect_transmits Pack MsgString flags world w r g q qs
                HQ Hx) as Hm.
  cbv zeta. split; [exact Hm |].
  unfold reflect_reply. cbn [reply_of Extra]. unfold signature.
  destruct (IsTsig r) as [t |]; [destruct (TsigStatus w) as [e |] |].
  - rewrite app_nil_r.
    destruct (Qtype q =? TypeTXT); cbn [filter];
      rewrite ?self_address_not_tsig; reflexivity.
  - eexists. split; [reflexivity |].
    destruct (Qtype q =? TypeTXT); cbn [filter];
      rewrite ?self_address_not_tsig; reflexivity.
  - rewrite app_nil_r.
    destruct (Qtype q =? TypeTXT); cbn [filter];
      rewrite ?self_address_not_tsig; reflexivity.
Qed.

(** A signed A query that the server verified. *)
Lemma reflect_signs_verified_witness :
  let m := reflect_reply Examples.quiet Examples.clock Examples.keyed_udp4
                         (Examples.signed_query dom TypeA)
                         (mkQuestion dom TypeA ClassINET) in
  transmits Examples.header_pack
    (events (handleReflect Examples.header_pack Examples.show Examples.quiet
               Examples.clock Examples.keyed_udp4
               (Examples.signed_query dom TypeA) 0)) m
  /\ exists rrs,
       Extra m
       = rrs ++ [RR_TSIG (mkTSIG (mkHdr "key." TypeTSIG ClassANY 0)
                                 HmacMD5 1700000000 300 EmptyString 7)]
       /\ filter is_tsig rrs = [].
Proof.
  exact (reflect_signs_verified Examples.header_pack Examples.show
           Examples.quiet Examples.clock Examples.keyed_udp4
           (Examples.signed_query dom TypeA) 0
           (mkQuestion dom TypeA ClassINET) [] eq_refl eq_refl).
Defined.

(** C8, as the specification states it, fails: for an AXFR query whose TSIG
    record fails verification the handler returns from the zone-transfer
    path and logs nothing. *)
Lemma tsig_failure_always_logged_fails :
  IsTsig (Examples.signed_query dom TypeAXFR) <> None
  /\ TsigStatus Examples.rejecting_tcp4 = Some "dns: bad signature"%string
  /\ handleReflect Examples.header_pack Examples.show Examples.quiet
                   Examples.clock Examples.rejecting_tcp4
                   (Examples.signed_query dom TypeAXFR) 0
     = (1,
        [EvEnvelope [whoami_soa;
                     RR_TXT (mkHdr dom TypeTXT ClassINET 0)
                            ["Port: 40001 (tcp)"%string];
                     RR_A (mkHdr dom TypeA ClassINET 0) [203; 0; 113; 7];
                     whoami_soa];
         EvHijack; EvClose],
        Returned)
  /\ ~ Stated.tsig_failure_always_logged.
Proof.
  split; [discriminate |]. repeat (split; [reflexivity |]).
  intro H.
  destruct (H Examples.header_pack Examples.show Examples.quiet Examples.clock
              Examples.rejecting_tcp4 (Examples.signed_query dom TypeAXFR) 0
              (mkQuestion dom TypeAXFR ClassINET) []
              {| TsigHdr := mkHdr "key." TypeTSIG ClassANY 0;
                 Algorithm := HmacMD5; TimeSigned := 1699999990; Fudge := 300;
                 MAC := "bWFj"; OrigId := 7 |}
              "dns: bad signature"%string eq_refl eq_refl eq_refl)
    as [Hlog _].
  vm_compute in Hlog.
  repeat (destruct Hlog as [Hlog | Hlog]; [discriminate Hlog |]).
  exact Hlog.
Qed.

(** C8, amended.  When a query other than AXFR and IXFR carries a TSIG
    record that fails verification, the handler logs the status and still
    sends the reply of the specification, without a TSIG record: what it
    puts on the wire is what it sends for the same request without its
    extra section, so the failure neither suppresses the reply nor changes
    its answer and extra sections. *)
Theorem reflect_tsig_failure Pack MsgString flags world
  (w : ResponseWriter) (r : Msg) (g : Z)
  (q : DnsQuestion) (qs : list DnsQuestion) (t : TSIG) (e : string) :
  Question r = q :: qs ->
  is_transfer (Qtype q) = false ->
  IsTsig r = Some t ->
  TsigStatus w = Some e ->
  let evs := events (handleReflect Pack MsgString flags world w r g) in
  let m := reflect_reply flags world w r q in
  In (EvStderr ("Status " ++ e ++ nl)%string) evs
  /\ transmits Pack evs m
  /\ filter is_tsig (Extra m) = []
  /\ sent evs
     = sent (events (handleReflect Pack MsgString flags world w
                       (set_Extra r []) g)).
Proof.
  intros HQ Hx Ht He. cbv zeta.
  split; [| split; [| split]].
  - rewrite (handleReflect_reply Pack MsgString flags world w r g q qs HQ Hx).
    unfold events, status_log. cbn [fst snd]. rewrite Ht, He.
    apply in_or_app. right. apply in_or_app. left. left. reflexivity.
  - exact (handleReflect_transmits Pack MsgString flags world w r g q qs
             HQ Hx).
  - unfold reflect_reply. cbn [reply_of Extra]. unfold signature.
    rewrite Ht, He, app_nil_r.
    destruct (Qtype q =? TypeTXT); cbn [filter];
      rewrite ?self_address_not_tsig; reflexivity.
  - assert (HQ0 : Question (set_Extra r []) = q :: qs) by exact HQ.
    rewrite (handleReflect_sent Pack MsgString flags world w r g q qs HQ Hx).
    rewrite (handleReflect_sent Pack MsgString flags world w (set_Extra r [])
               g q qs HQ0 Hx).
    unfold reply_of, signature. rewrite Ht, He. reflexivity.
Qed.

(** A signed A query that the server rejected. *)
Lemma reflect_tsig_failure_witness :
  In (EvStderr ("Status dns: bad signature" ++ nl)%string)
     (events (handleReflect Examples.header_pack Examples.show Examples.quiet
                Examples.clock Examples.rejecting_tcp4
                (Examples.signed_query dom TypeA) 0)).
Proof.
  exact (proj1 (reflect_tsig_failure Examples.header_pack Examples.show
                  Examples.quiet Examples.clock Examples.rejecting_tcp4
                  (Examples.signed_query dom TypeA) 0
                  (mkQuestion dom TypeA ClassINET) [] _ _
                  eq_refl eq_refl eq_refl eq_refl)).
Defined.

(** ** The record store *)

(** C6, as the specification states it, fails: an A query for a name with no
    row is answered with the A record [0.0.0.0] and TTL 0, built from the
    zero values the lookup returns. *)
Lemma miss_answered_with_any_fails :
  lookUpNameInDb Examples.records_db "nosuch.baz.miek.nl." "A"
  = Some (0, EmptyString, None)
  /\ (exists m,
        handleSqlite Examples.records_db Examples.udp4
                     (Examples.query "nosuch.baz.miek.nl." TypeA)
        = ([EvWriteMsg m], Returned)
        /\ Answer m
           = [RR_A (mkHdr "nosuch.baz.miek.nl." TypeA ClassINET 0)
                   [0; 0; 0; 0]])
  /\ ~ Stated.miss_answered_with_any.
Proof.
  split; [reflexivity |].
  split; [eexists; split; reflexivity |].
  intro H.
  destruct (H Examples.records_db Examples.udp4
              (Examples.query "nosuch.baz.miek.nl." TypeA)
              (mkQuestion "nosuch.baz.miek.nl." TypeA ClassINET) []
              eq_refl eq_refl eq_refl eq_refl)
    as [m [Hs Ha]].
  vm_compute in Hs. injection Hs as <-.
  vm_compute in Ha. discriminate Ha.
Qed.

(** C6, amended.  A Record-Store query of any type other than A is answered,
    without a lookup, with one empty record of type ANY, with the name of
    the question and TTL 60, whatever the state of the store. *)
Theorem sqlite_answers_any (db : Db) (w : ResponseWriter) (r : Msg)
  (q : DnsQuestion) (qs : list DnsQuestion) :
  Question r = q :: qs ->
  Qtype q <> TypeA ->
  exists m,
    handleSqlite db w r = ([EvWriteMsg m], Returned)
    /\ Question m = [q]
    /\ Answer m = [any_record (QName q)]
    /\ Extra m = [].
Proof.
  intros HQ Ht. apply Z.eqb_neq in Ht.
  unfold handleSqlite. rewrite HQ, Ht.
  eexists. split; [reflexivity |].
  unfold SetReply. rewrite HQ. repeat split.
Qed.

(** A TXT query to the record store. *)
Lemma sqlite_answers_any_witness :
  exists m,
    handleSqlite Examples.records_db Examples.udp4
                 (Examples.query "www.baz.miek.nl." TypeTXT)
    = ([EvWriteMsg m], Returned)
    /\ Answer m = [RR_ANY (mkHdr "www.baz.miek.nl." TypeANY ClassINET 60)].
Proof.
  destruct (sqlite_answers_any Examples.records_db Examples.udp4
              (Examples.query "www.baz.miek.nl." TypeTXT)
              (mkQuestion "www.baz.miek.nl." TypeTXT ClassINET) [] eq_refl)
    as [m [Hs [_ [Ha _]]]]; [discriminate |].
  exists m. split; [exact Hs | exact Ha].
Defined.

(** ** The question section *)

(** C10.  Both handlers read the first question without a test: on a request
    with an empty question section [handleReflect] panics after it has
    counted the request, and [handleSqlite] panics at once; neither puts
    anything on the wire. *)
Theorem handlers_need_question Pack MsgString flags world
  (db : Db) (w : ResponseWriter) (r : Msg) (g : Z) :
  Question r = [] ->
  handleReflect Pack MsgString flags world w r g
  = (wrap_int (g + 1), progress (wrap_int (g + 1)), Panicked)
  /\ sent (events (handleReflect Pack MsgString flags world w r g)) = []
  /\ handleSqlite db w r = ([], Panicked).
Proof.
  intros HQ.
  assert (H : handleReflect Pack MsgString flags world w r g
              = (wrap_int (g + 1), progress (wrap_int (g + 1)), Panicked)).
  { unfold handleReflect. rewrite HQ.
    destruct (RemoteAddr w) as [ip port | ip port |]; reflexivity. }
  split; [exact H |]. split.
  - rewrite H. unfold events. cbn [fst snd]. apply sent_progress.
  - unfold handleSqlite. rewrite HQ. reflexivity.
Qed.

(** The thousandth request, without question. *)
Lemma handlers_need_question_witness :
  handleReflect Examples.header_pack Examples.show Examples.quiet Examples.clock
                Examples.udp4 Examples.no_question 999
  = (1000, [progress_line 1000], Panicked)
  /\ handleSqlite Examples.records_db Examples.udp4 Examples.no_question
     = ([], Panicked).
Proof.
  destruct (handlers_need_question Examples.header_pack Examples.show
              Examples.quiet Examples.clock Examples.records_db Examples.udp4
              Examples.no_question 999 eq_refl)
    as [Hr [_ Hs]].
  split; [exact Hr | exact Hs].
Defined.

(** ** The counter *)

Lemma wrap_int_succ (g : Z) : int_min <= g < int_max -> wrap_int (g + 1) = g + 1.
Proof.
  unfold int_min, int_max, wrap_int. intros Hg.
  rewrite Z.mod_small; lia.
Qed.

(** A request without question: the handler counts it and panics. *)
Lemma handleReflect_no_question Pack MsgString flags world
  (w : ResponseWriter) (r : Msg) (g : Z) :
  Question r = [] ->
  handleReflect Pack MsgString flags world w r g
  = (wrap_int (g + 1), progress (wrap_int (g + 1)), Panicked).
Proof.
  intros HQ. unfold handleReflect. rewrite HQ.
  destruct (RemoteAddr w) as [ip port | ip port |]; reflexivity.
Qed.

(** The counter changes nothing in a call but the progress line. *)
Lemma handleReflect_counter Pack MsgString flags world
  (w : ResponseWriter) (r : Msg) (g : Z) :
  handleReflect Pack MsgString flags world w r g
  = (wrap_int (g + 1),
     progress (wrap_int (g + 1))
       ++ events (handleReflect Pack MsgString flags world w r 0),
     snd (handleReflect Pack MsgString flags world w r 0)).
Proof.
  destruct (Question r) as [| q qs] eqn:HQ.
  - rewrite !(handleReflect_no_question Pack MsgString flags world w r _ HQ).
    unfold events. cbn [fst snd progress]. rewrite app_nil_r. reflexivity.
  - destruct (is_transfer (Qtype q)) eqn:Hx.
    + rewrite !(handleReflect_transfer Pack MsgString flags world w r _ q qs
                  HQ Hx).
      reflexivity.
    + rewrite !(handleReflect_reply Pack MsgString flags world w r _ q qs
                  HQ Hx).
      reflexivity.
Qed.

Lemma handle_all_count Pack MsgString flags world
  (reqs : list (ResponseWriter * Msg)) :
  forall g,
    int_min <= g ->
    g + Z.of_nat (List.length reqs) <= int_max ->
    fst (handle_all Pack MsgString flags world reqs g)
    = g + Z.of_nat (List.length reqs).
Proof.
  induction reqs as [| [w r] reqs IH]; intros g Hlo Hhi.
  - cbn. lia.
  - cbn [handle_all List.length] in *.
    rewrite handleReflect_counter.
    rewrite wrap_int_succ by lia.
    specialize (IH (g + 1)).
    destruct (handle_all Pack MsgString flags world reqs (g + 1))
      as [final results].
    cbn [fst] in *. rewrite IH; lia.
Qed.

Lemma handle_all_nth Pack MsgString flags world
  (reqs : list (ResponseWriter * Msg)) :
  forall g i w r,
    int_min <= g ->
    g + Z.of_nat (List.length reqs) <= int_max ->
    nth_error reqs i = Some (w, r) ->
    nth_error (snd (handle_all Pack MsgString flags world reqs g)) i
    = Some (progress (g + Z.of_nat i + 1)
              ++ events (handleReflect Pack MsgString flags world w r 0),
            snd (handleReflect Pack MsgString flags world w r 0)).
Proof.
  induction reqs as [| [w0 r0] reqs IH]; intros g i w r Hlo Hhi Hn.
  - destruct i; discriminate Hn.
  - cbn [handle_all List.length] in *.
    rewrite handleReflect_counter.
    rewrite wrap_int_succ by lia.
    specialize (IH (g + 1)).
    destruct (handle_all Pack MsgString flags world reqs (g + 1))
      as [final results].
    cbn [snd] in *.
    destruct i as [| i].
    + cbn in Hn. injection Hn as -> ->. cbn [nth_error].
      replace (g + Z.of_nat 0 + 1) with (g + 1) by lia. reflexivity.
    + cbn [nth_error] in *.
      rewrite (IH i w r) by (assumption || lia).
      replace (g + 1 + Z.of_nat i + 1) with (g + Z.of_nat (S i) + 1) by lia.
      reflexivity.
Qed.

(** A step of the goroutine that stands behind [before]. *)
Lemma step_at_app (before after : list Thread) (t : Thread) (g : Z) :
  step_at (List.length before) g (before ++ t :: after)
  = match step g t with
    | Some (g', t') => Some (g', before ++ t' :: after)
    | None => None
    end.
Proof.
  induction before as [| b before IH]; cbn [List.length app step_at].
  - destruct (step g t) as [[g' t'] |]; reflexivity.
  - rewrite IH. destruct (step g t) as [[g' t'] |]; reflexivity.
Qed.

(** Goroutines that run one after the other lose no update. *)
Lemma run_one_by_one (n : nat) :
  forall (before : list Thread) (g : Z),
    int_min <= g ->
    g + Z.of_nat n <= int_max ->
    forallb counted before = true ->
    exists ts,
      run (one_by_one (List.length before) n) g (before ++ repeat Ready n)
      = Some (g + Z.of_nat n, ts)
      /\ forallb counted ts = true.
Proof.
  induction n as [| n IH]; intros before g Hlo Hhi Hb.
  - exists before. cbn [one_by_one run repeat].
    rewrite app_nil_r, Z.add_0_r. split; [reflexivity | exact Hb].
  - cbn [one_by_one run repeat].
    rewrite step_at_app. cbn [step].
    rewrite step_at_app. cbn [step].
    rewrite step_at_app. cbn [step].
    rewrite wrap_int_succ by lia.
    set (done := Counted (if Z.rem (g + 1) 1000 =? 0 then Some (g + 1)
                          else None)).
    destruct (IH (before ++ [done]) (g + 1)) as [ts [Hrun Hts]]; try lia.
    { rewrite forallb_app, Hb. reflexivity. }
    rewrite length_app, Nat.add_1_r, <- app_assoc in Hrun.
    cbn [app] in Hrun.
    exists ts. rewrite Hrun. split; [f_equal; f_equal; lia | exact Hts].
Qed.

(** C9, as the specification states it, fails: the handler reads and writes
    the counter without synchronisation, and when two goroutines both read
    0 before either writes, both write 1 and one update is lost. *)
Lemma no_lost_update_fails :
  run [0; 1; 0; 1; 0; 1]%nat 0 [Ready; Ready]
  = Some (1, [Counted None; Counted None])
  /\ ~ Stated.no_lost_update.
Proof.
  split; [reflexivity |].
  intro H.
  pose proof (H [0; 1; 0; 1; 0; 1]%nat 2%nat 0 1
                [Counted None; Counted None]) as Hg.
  vm_compute in Hg.
  assert (Hfalse : 1 = 2) by (apply Hg; (discriminate || reflexivity)).
  discriminate Hfalse.
Qed.

(** C9, amended.  Called on one request after the other, [handleReflect]
    adds exactly one to the counter in each call, as long as the count stays
    in the range of [int]: after the calls the counter has grown by their
    number, and the call that brings the count to [n] prints the progress
    line exactly when [n] is a multiple of 1000, the counter changing
    nothing else in what the call does.  Goroutines that take their steps on
    the counter one after the other leave the same count.  Nothing is
    promised for handlers that run at the same time. *)
Theorem reflect_counter_sequential Pack MsgString flags world
  (reqs : list (ResponseWriter * Msg)) (g : Z) :
  0 <= g ->
  g + Z.of_nat (List.length reqs) <= int_max ->
  fst (handle_all Pack MsgString flags world reqs g)
  = g + Z.of_nat (List.length reqs)
  /\ (forall i w r,
        nth_error reqs i = Some (w, r) ->
        nth_error (snd (handle_all Pack MsgString flags world reqs g)) i
        = Some ((if Z.rem (g + Z.of_nat i + 1) 1000 =? 0
                 then [progress_line (g + Z.of_nat i + 1)]
                 else [])
                  ++ events (handleReflect Pack MsgString flags world w r 0),
                snd (handleReflect Pack MsgString flags world w r 0)))
  /\ (exists ts,
        run (one_by_one 0 (List.length reqs)) g
            (repeat Ready (List.length reqs))
        = Some (g + Z.of_nat (List.length reqs), ts)
        /\ forallb counted ts = true).
Proof.
  intros Hlo Hhi.
  assert (Hmin : int_min <= g) by (unfold int_min; lia).
  split; [| split].
  - apply handle_all_count; assumption.
  - intros i w r Hn.
    exact (handle_all_nth Pack MsgString flags world reqs g i w r Hmin Hhi Hn).
  - exact (run_one_by_one (List.length reqs) [] g Hmin Hhi eq_refl).
Qed.

(** Two requests, handled from the count 998 on. *)
Lemma reflect_counter_sequential_witness :
  fst (handle_all Examples.header_pack Examples.show Examples.quiet
                  Examples.clock
                  [(Examples.udp4, Examples.query dom TypeA);
                   (Examples.tcp6, Examples.query dom TypeTXT)] 998)
  = 1000.
Proof.
  exact (proj1 (reflect_counter_sequential Examples.header_pack Examples.show
                  Examples.quiet Examples.clock
                  [(Examples.udp4, Examples.query dom TypeA);
                   (Examples.tcp6, Examples.query dom TypeTXT)] 998
                  ltac:(lia) ltac:(vm_compute; discriminate))).
Defined.

(** * Further properties of the handlers *)

Import Startup Shape.

(** ** The record store: lookups *)

Lemma Split_length (s : string) : List.length (Split s ".") = S (dots s).
Proof.
  induction s as [| c s IH]; [reflexivity |].
  cbn [Split dots]. destruct (Ascii.eqb c ".").
  - cbn [List.length]. now rewrite IH.
  - destruct (Split s ".") as [| piece pieces]; [discriminate IH |].
    exact IH.
Qed.

(** The loop over the pieces fills the four bytes from the left and panics
    on the fifth piece. *)
Lemma fill_octets_four (pieces : list string) :
  fill_octets pieces 0 [0; 0; 0; 0]
  = if (List.length pieces <=? 4)%nat
    then Some (map octet_of pieces ++ repeat 0 (4 - List.length pieces))
    else None.
Proof.
  destruct pieces as [| s1 [| s2 [| s3 [| s4 [| s5 rest]]]]]; reflexivity.
Qed.

Lemma four_bytes_back (l : list byte) :
  List.length l = 4%nat ->
  orNil (To4 (IPv4 (nth 0 l 0) (nth 1 l 0) (nth 2 l 0) (nth 3 l 0))) = l.
Proof.
  destruct l as [| a [| b [| c [| d [| e rest]]]]]; try discriminate.
  reflexivity.
Qed.

Lemma octets_of_length (rdata : string) :
  (dots rdata <= 3)%nat -> List.length (octets_of rdata) = 4%nat.
Proof.
  intros Hd. unfold octets_of.
  rewrite length_app, length_map, Split_length, repeat_length. lia.
Qed.

Lemma octet_of_range (piece : string) : 0 <= octet_of piece < 256.
Proof. unfold octet_of, byte_of_int. apply Z.mod_pos_bound. lia. Qed.

Lemma octets_of_range (rdata : string) :
  Forall (fun b => 0 <= b < 256) (octets_of rdata).
Proof.
  unfold octets_of. apply Forall_app. split.
  - apply Forall_forall. intros b Hb. apply in_map_iff in Hb.
    destruct Hb as [piece [<- _]]. apply octet_of_range.
  - apply Forall_forall. intros b Hb. apply repeat_spec in Hb. subst b. lia.
Qed.

(** An A query whose lookup returns: the whole result of [handleSqlite]. *)
Lemma handleSqlite_A (db : Db) (w : ResponseWriter) (r : Msg)
  (q : DnsQuestion) (qs : list DnsQuestion) (ttl : Z) (rdata : string) :
  Question r = q :: qs ->
  Qtype q = TypeA ->
  lookUpNameInDb db (QName q) "A" = Some (ttl, rdata, None) ->
  handleSqlite db w r
  = if (dots rdata <=? 3)%nat
    then ([EvWriteMsg
             (set_Answer (SetReply newMsg r)
                [RR_A (mkHdr (QName q) TypeA ClassINET (ttl mod 2 ^ 32))
                      (octets_of rdata)])],
          Returned)
    else ([], Panicked).
Proof.
  intros HQ Ht Hl.
  unfold handleSqlite. rewrite HQ, Ht, Hl. cbn [Z.eqb TypeA Pos.eqb].
  rewrite fill_octets_four, Split_length.
  change (S (dots rdata) <=? 4)%nat with (dots rdata <=? 3)%nat.
  destruct (dots rdata <=? 3)%nat eqn:Hd; [| reflexivity].
  apply Nat.leb_le in Hd.
  replace (4 - S (dots rdata))%nat with (3 - dots rdata)%nat by lia.
  fold (octets_of rdata).
  rewrite (four_bytes_back _ (octets_of_length rdata Hd)).
  reflexivity.
Qed.

(** X1.  [lookUpNameInDb] returns the ttl and rdata of the last row of the
    table that has the name and the type asked for: rows before it, with
    the same name and type or not, do not count. *)
Theorem lookup_last_row_wins (db : Db) (name rrtype : string)
  (before after : list Row) (row : Row) :
  db_err db = None ->
  records db = before ++ row :: after ->
  row_matches name rrtype row = true ->
  filter (row_matches name rrtype) after = [] ->
  lookUpNameInDb db name rrtype = Some (row_ttl row, row_rdata row, None).
Proof.
  intros He Hr Hm Ha.
  unfold lookUpNameInDb. rewrite He, Hr, filter_app. cbn [filter].
  rewrite Hm, Ha, fold_left_app. reflexivity.
Qed.

(** Two rows for the same name: the later one is returned. *)
Lemma lookup_last_row_wins_witness :
  lookUpNameInDb
    (mkDb None [mkRow "www.baz.miek.nl." "A" 300 "192.0.2.10";
                mkRow "ftp.baz.miek.nl." "A" 60 "192.0.2.20";
                mkRow "www.baz.miek.nl." "A" 30 "192.0.2.11"])
    "www.baz.miek.nl." "A"
  = Some (30, "192.0.2.11"%string, None).
Proof.
  exact (lookup_last_row_wins
           (mkDb None [mkRow "www.baz.miek.nl." "A" 300 "192.0.2.10";
                       mkRow "ftp.baz.miek.nl." "A" 60 "192.0.2.20";
                       mkRow "www.baz.miek.nl." "A" 30 "192.0.2.11"])
           "www.baz.miek.nl." "A"
           [mkRow "www.baz.miek.nl." "A" 300 "192.0.2.10";
            mkRow "ftp.baz.miek.nl." "A" 60 "192.0.2.20"]
           [] (mkRow "www.baz.miek.nl." "A" 30 "192.0.2.11")
           eq_refl eq_refl eq_refl eq_refl).
Defined.

(** X2.  An A query for a name without row in the table is not told apart
    from a hit: the lookup returns zero values without error, and the
    handler answers with the A record [0.0.0.0] and TTL 0. *)
Theorem sqlite_miss_answers_zero (db : Db) (w : ResponseWriter) (r : Msg)
  (q : DnsQuestion) (qs : list DnsQuestion) :
  Question r = q :: qs ->
  Qtype q = TypeA ->
  db_err db = None ->
  filter (row_matches (QName q) "A") (records db) = [] ->
  handleSqlite db w r
  = ([EvWriteMsg
        (set_Answer (SetReply newMsg r)
           [RR_A (mkHdr (QName q) TypeA ClassINET 0) [0; 0; 0; 0]])],
     Returned).
Proof.
  intros HQ Ht He Hf.
  assert (Hl : lookUpNameInDb db (QName q) "A" = Some (0, EmptyString, None)).
  { unfold lookUpNameInDb. rewrite He, Hf. reflexivity. }
  rewrite (handleSqlite_A db w r q qs 0 EmptyString HQ Ht Hl).
  reflexivity.
Qed.

(** A query for a name the table does not hold. *)
Lemma sqlite_miss_answers_zero_witness :
  handleSqlite Examples.records_db Examples.udp4
               (Examples.query "mail.baz.miek.nl." TypeA)
  = ([EvWriteMsg
        (set_Answer (SetReply newMsg (Examples.query "mail.baz.miek.nl." TypeA))
           [RR_A (mkHdr "mail.baz.miek.nl." TypeA ClassINET 0) [0; 0; 0; 0]])],
     Returned).
Proof.
  exact (sqlite_miss_answers_zero Examples.records_db Examples.udp4
           (Examples.query "mail.baz.miek.nl." TypeA)
           (mkQuestion "mail.baz.miek.nl." TypeA ClassINET) []
           eq_refl eq_refl eq_refl eq_refl).
Defined.

(** ** The record store: the address in the rdata *)

Lemma lookup_err_nil (db : Db) (name rrtype : string)
  (ttl : Z) (rdata : string) (err : error) :
  lookUpNameInDb db name rrtype = Some (ttl, rdata, err) -> err = None.
Proof.
  unfold lookUpNameInDb. destruct (db_err db); [discriminate |].
  assert (H : forall (l : list Row) (acc : Z * string * error),
             snd acc = None ->
             snd (fold_left
                    (fun (_ : Z * string * error) (row : Row) =>
                       (row_ttl row, row_rdata row, @None string))
                    l acc) = None).
  { induction l as [| row l IH]; intros acc Hacc; [exact Hacc |].
    cbn [fold_left]. apply IH. reflexivity. }
  intros Heq. injection Heq as Heq.
  specialize (H (filter (row_matches name rrtype) (records db))
                (0, EmptyString, None) eq_refl).
  unfold error in *. rewrite Heq in H. exact H.
Qed.

Lemma dots_app (s1 s2 : string) :
  dots (s1 ++ s2) = (dots s1 + dots s2)%nat.
Proof.
  induction s1 as [| c s1 IH]; [reflexivity |].
  cbn [append dots]. destruct (Ascii.eqb c "."); rewrite IH; reflexivity.
Qed.

Lemma Split_nodot (s : string) : dots s = 0%nat -> Split s "." = [s].
Proof.
  induction s as [| c s IH]; [reflexivity |].
  cbn [dots Split]. destruct (Ascii.eqb c "."); [discriminate |].
  intros Hd. rewrite (IH Hd). reflexivity.
Qed.

Lemma Split_nodot_app (s rest : string) :
  dots s = 0%nat ->
  Split (s ++ String "." rest) "." = s :: Split rest ".".
Proof.
  induction s as [| c s IH]; [reflexivity |].
  cbn [dots append Split]. destruct (Ascii.eqb c "."); [discriminate |].
  intros Hd. rewrite (IH Hd). reflexivity.
Qed.

(** The decimal text of a byte holds no dot, and [Atoi] reads it back. *)
Lemma byte_text (n : Z) :
  0 <= n < 256 -> dots (Itoa n) = 0%nat /\ Atoi (Itoa n) = (n, None).
Proof.
  intros Hn.
  assert (Hall : forallb byte_text_ok (seq 0 256) = true)
    by (vm_compute; reflexivity).
  rewrite forallb_forall in Hall.
  specialize (Hall (Z.to_nat n)).
  assert (Hin : In (Z.to_nat n) (seq 0 256)) by (apply in_seq; lia).
  specialize (Hall Hin).
  unfold byte_text_ok in Hall. rewrite Z2Nat.id in Hall by lia.
  apply andb_true_iff in Hall. destruct Hall as [Hd Ha].
  apply Nat.eqb_eq in Hd. split; [exact Hd |].
  destruct (Atoi (Itoa n)) as [v [e |]]; [discriminate Ha |].
  apply Z.eqb_eq in Ha. now subst v.
Qed.

Lemma octets_of_dotted (a b c d : Z) :
  0 <= a < 256 -> 0 <= b < 256 -> 0 <= c < 256 -> 0 <= d < 256 ->
  dots (dotted a b c d) = 3%nat /\ octets_of (dotted a b c d) = [a; b; c; d].
Proof.
  intros Ha Hb Hc Hd.
  destruct (byte_text a Ha) as [Da Ra], (byte_text b Hb) as [Db Rb],
           (byte_text c Hc) as [Dc Rc], (byte_text d Hd) as [Dd Rd].
  assert (Hdots : dots (dotted a b c d) = 3%nat).
  { unfold dotted. rewrite !dots_app, Da, Db, Dc, Dd. reflexivity. }
  split; [exact Hdots |].
  unfold octets_of. rewrite Hdots. unfold dotted.
  change ("." ++ Itoa b ++ "." ++ Itoa c ++ "." ++ Itoa d)%string
    with (String "." (Itoa b ++ String "." (Itoa c ++ String "." (Itoa d)))).
  rewrite (Split_nodot_app _ _ Da), (Split_nodot_app _ _ Db),
    (Split_nodot_app _ _ Dc), (Split_nodot _ Dd).
  cbn [map repeat app Nat.sub]. unfold octet_of, byte_of_int.
  rewrite Ra, Rb, Rc, Rd. cbn [fst].
  rewrite !Z.mod_small by lia. reflexivity.
Qed.

(** X3.  Round trip of an address through the store: when the row found
    for an A query holds the dotted-decimal text of four bytes and a ttl
    that fits 32 bits, the handler answers with the A record of these four
    bytes, the name of the question and that ttl. *)
Theorem sqlite_dotted_round_trip (db : Db) (w : ResponseWriter) (r : Msg)
  (q : DnsQuestion) (qs : list DnsQuestion) (ttl a b c d : Z) :
  Question r = q :: qs ->
  Qtype q = TypeA ->
  lookUpNameInDb db (QName q) "A" = Some (ttl, dotted a b c d, None) ->
  0 <= ttl < 2 ^ 32 ->
  0 <= a < 256 -> 0 <= b < 256 -> 0 <= c < 256 -> 0 <= d < 256 ->
  handleSqlite db w r
  = ([EvWriteMsg
        (set_Answer (SetReply newMsg r)
           [RR_A (mkHdr (QName q) TypeA ClassINET ttl) [a; b; c; d]])],
     Returned).
Proof.
  intros HQ Ht Hl Httl Ha Hb Hc Hd.
  rewrite (handleSqlite_A db w r q qs ttl _ HQ Ht Hl).
  destruct (octets_of_dotted a b c d Ha Hb Hc Hd) as [Hdots Hoct].
  rewrite Hdots, Hoct. cbn [Nat.leb].
  rewrite Z.mod_small by exact Httl. reflexivity.
Qed.

(** The row of the example table, [192.0.2.10] with ttl 300. *)
Lemma sqlite_dotted_round_trip_witness :
  handleSqlite Examples.records_db Examples.tcp6
               (Examples.query "www.baz.miek.nl." TypeA)
  = ([EvWriteMsg
        (set_Answer (SetReply newMsg (Examples.query "www.baz.miek.nl." TypeA))
           [RR_A (mkHdr "www.baz.miek.nl." TypeA ClassINET 300)
                 [192; 0; 2; 10]])],
     Returned).
Proof.
  apply (sqlite_dotted_round_trip Examples.records_db Examples.tcp6
           (Examples.query "www.baz.miek.nl." TypeA)
           (mkQuestion "www.baz.miek.nl." TypeA ClassINET) []
           300 192 0 2 10);
    try reflexivity; lia.
Defined.

(** X4.  An rdata with more than three dots makes the handler panic: the
    fifth piece is stored outside the array of four bytes, and nothing is
    written to the client. *)
Theorem sqlite_panics_on_fifth_piece (db : Db) (w : ResponseWriter) (r : Msg)
  (q : DnsQuestion) (qs : list DnsQuestion) (ttl : Z) (rdata : string) :
  Question r = q :: qs ->
  Qtype q = TypeA ->
  lookUpNameInDb db (QName q) "A" = Some (ttl, rdata, None) ->
  (3 < dots rdata)%nat ->
  handleSqlite db w r = ([], Panicked).
Proof.
  intros HQ Ht Hl Hd.
  rewrite (handleSqlite_A db w r q qs ttl rdata HQ Ht Hl).
  apply Nat.leb_gt in Hd. rewrite Hd. reflexivity.
Qed.

(** A row with five pieces. *)
Lemma sqlite_panics_on_fifth_piece_witness :
  handleSqlite (mkDb None [mkRow "www.baz.miek.nl." "A" 300 "192.0.2.10.5"])
               Examples.udp4 (Examples.query "www.baz.miek.nl." TypeA)
  = ([], Panicked).
Proof.
  apply (sqlite_panics_on_fifth_piece
           (mkDb None [mkRow "www.baz.miek.nl." "A" 300 "192.0.2.10.5"])
           Examples.udp4 (Examples.query "www.baz.miek.nl." TypeA)
           (mkQuestion "www.baz.miek.nl." TypeA ClassINET) []
           300 "192.0.2.10.5");
    try reflexivity.
  cbn. lia.
Defined.

(** X5.  An rdata with at most three dots is never refused: each piece
    gives one byte, the value [Atoi] reads from it reduced modulo 256, which
    is 0 for a piece that is no number, and the pieces that are missing give
    the byte 0; the ttl is reduced modulo 2^32. *)
Theorem sqlite_reads_any_rdata (db : Db) (w : ResponseWriter) (r : Msg)
  (q : DnsQuestion) (qs : list DnsQuestion) (ttl : Z) (rdata : string) :
  Question r = q :: qs ->
  Qtype q = TypeA ->
  lookUpNameInDb db (QName q) "A" = Some (ttl, rdata, None) ->
  (dots rdata <= 3)%nat ->
  handleSqlite db w r
  = ([EvWriteMsg
        (set_Answer (SetReply newMsg r)
           [RR_A (mkHdr (QName q) TypeA ClassINET (ttl mod 2 ^ 32))
                 (map (fun piece => fst (Atoi piece) mod 256)
                      (Split rdata ".")
                  ++ repeat 0 (3 - dots rdata))])],
     Returned).
Proof.
  intros HQ Ht Hl Hd.
  rewrite (handleSqlite_A db w r q qs ttl rdata HQ Ht Hl).
  apply Nat.leb_le in Hd. rewrite Hd. reflexivity.
Qed.

(** A row with two pieces, one of them no number, and a negative ttl. *)
Lemma sqlite_reads_any_rdata_witness :
  handleSqlite (mkDb None [mkRow "www.baz.miek.nl." "A" (-1) "300.x"])
               Examples.udp4 (Examples.query "www.baz.miek.nl." TypeA)
  = ([EvWriteMsg
        (set_Answer (SetReply newMsg (Examples.query "www.baz.miek.nl." TypeA))
           [RR_A (mkHdr "www.baz.miek.nl." TypeA ClassINET 4294967295)
                 [44; 0; 0; 0]])],
     Returned).
Proof.
  apply (sqlite_reads_any_rdata
           (mkDb None [mkRow "www.baz.miek.nl." "A" (-1) "300.x"])
           Examples.udp4 (Examples.query "www.baz.miek.nl." TypeA)
           (mkQuestion "www.baz.miek.nl." TypeA ClassINET) []
           (-1) "300.x");
    try reflexivity.
  cbn. lia.
Defined.

(** X6.  Whatever the table holds, a message [handleSqlite] writes has an
    empty extra section and exactly one answer record, under the name of
    the question: the ANY record with TTL 60 for a query of another type
    than A, and for an A query an A record with a TTL below 2^32 and four
    bytes, each below 256. *)
Theorem sqlite_answer_shape (db : Db) (w : ResponseWriter) (r m : Msg) :
  In (EvWriteMsg m) (fst (handleSqlite db w r)) ->
  exists q,
    hd_error (Question r) = Some q
    /\ Extra m = []
    /\ ((Qtype q <> TypeA /\ Answer m = [any_record (QName q)])
        \/ (Qtype q = TypeA
            /\ exists ttl ip,
                 Answer m = [RR_A (mkHdr (QName q) TypeA ClassINET ttl) ip]
                 /\ 0 <= ttl < 2 ^ 32
                 /\ List.length ip = 4%nat
                 /\ Forall (fun b => 0 <= b < 256) ip)).
Proof.
  destruct (Question r) as [| q qs] eqn:HQ.
  - unfold handleSqlite. rewrite HQ. intros [].
  - intros Hin. exists q. split; [reflexivity |].
    destruct (Qtype q =? TypeA) eqn:Ht.
    + apply Z.eqb_eq in Ht.
      destruct (lookUpNameInDb db (QName q) "A") as [[[ttl rdata] err] |] eqn:Hl.
      * pose proof (lookup_err_nil _ _ _ _ _ _ Hl) as ->.
        rewrite (handleSqlite_A db w r q qs ttl rdata HQ Ht Hl) in Hin.
        destruct (dots rdata <=? 3)%nat eqn:Hd; [| destruct Hin].
        apply Nat.leb_le in Hd.
        destruct Hin as [Heq | []]. injection Heq as <-.
        split; [reflexivity |]. right. split; [exact Ht |].
        exists (ttl mod 2 ^ 32), (octets_of rdata).
        split; [reflexivity |].
        split; [apply Z.mod_pos_bound; lia |].
        split; [exact (octets_of_length rdata Hd) | apply octets_of_range].
      * unfold handleSqlite in Hin. rewrite HQ, Ht, Hl in Hin. destruct Hin.
    + unfold handleSqlite in Hin. rewrite HQ, Ht in Hin.
      destruct Hin as [Heq | []]. injection Heq as <-.
      split; [reflexivity |]. left.
      apply Z.eqb_neq in Ht. split; [exact Ht | reflexivity].
Qed.

(** The message written for the row of the example table. *)
Lemma sqlite_answer_shape_witness :
  exists q,
    hd_error (Question (Examples.query "www.baz.miek.nl." TypeA)) = Some q
    /\ Qtype q = TypeA.
Proof.
  destruct (sqlite_answer_shape Examples.records_db Examples.udp4
              (Examples.query "www.baz.miek.nl." TypeA)
              (set_Answer
                 (SetReply newMsg (Examples.query "www.baz.miek.nl." TypeA))
                 [RR_A (mkHdr "www.baz.miek.nl." TypeA ClassINET 300)
                       [192; 0; 2; 10]]))
    as [q [Hq [_ [[Hne Ha] | [Ht _]]]]].
  - left. reflexivity.
  - exists q. split; [exact Hq |]. discriminate Ha.
  - exists q. split; [exact Hq | exact Ht].
Defined.

(** ** Every reply of the handlers *)

(** A property of the lines a handler logs and of the one thing it sends
    holds for all the effects of the reply path. *)
Lemma Forall_reply_events (P : Event -> Prop) MsgString flags
  (w : ResponseWriter) (r m : Msg) (n : Z) (final : Event) :
  (forall s, P (EvStdout s)) ->
  (forall s, P (EvStderr s)) ->
  P final ->
  Forall P (progress n ++ status_log w r ++ dump MsgString flags m ++ [final]).
Proof.
  intros Hout Herr Hfinal.
  repeat (apply Forall_app; split).
  - unfold progress. destruct (Z.rem n 1000 =? 0); repeat constructor.
    apply Hout.
  - unfold status_log.
    destruct (IsTsig r); [destruct (TsigStatus w) |]; repeat constructor.
    apply Herr.
  - unfold dump. destruct (printf flags); repeat constructor. apply Hout.
  - repeat constructor. exact Hfinal.
Qed.

Lemma Forall_transfer_events (P : Event -> Prop) (world : World)
  (n : Z) (rrs : list RR) :
  (forall s, P (EvStdout s)) ->
  P (EvEnvelope rrs) -> P EvHijack -> P EvClose ->
  Forall P (progress n
              ++ match TransferOut world with
                 | Some _ => [EvClose]
                 | None => [EvEnvelope rrs; EvHijack; EvClose]
                 end).
Proof.
  intros Hout Henv Hhij Hclose.
  apply Forall_app. split.
  - unfold progress. destruct (Z.rem n 1000 =? 0); repeat constructor.
    apply Hout.
  - destruct (TransferOut world); repeat constructor; assumption.
Qed.

Lemma self_address_typed (ip : IP) : typed (self_address ip) = true.
Proof. unfold self_address. destruct (To4 ip); reflexivity. Qed.

Lemma signature_typed (world : World) (w : ResponseWriter) (r : Msg) :
  forallb typed (signature world w r) = true.
Proof.
  unfold signature.
  destruct (IsTsig r); [destruct (TsigStatus w) |]; reflexivity.
Qed.

(** X8.  Every record the handlers send, in a message or in the envelope of
    a zone transfer, has in its header the type of its variant: A, AAAA,
    TXT, SOA, ANY or TSIG. *)
Theorem sent_records_typed Pack MsgString flags world
  (db : Db) (w : ResponseWriter) (r : Msg) (g : Z) (e : Event) :
  In e (events (handleReflect Pack MsgString flags world w r g))
  \/ In e (fst (handleSqlite db w r)) ->
  forallb typed (records_of e) = true.
Proof.
  intros [Hin | Hin].
  - revert e Hin. apply Forall_forall.
    destruct (Question r) as [| q qs] eqn:HQ.
    + rewrite (handleReflect_no_question Pack MsgString flags world w r g HQ).
      unfold events, progress. cbn [fst snd].
      destruct (Z.rem (wrap_int (g + 1)) 1000 =? 0); repeat constructor.
    + destruct (is_transfer (Qtype q)) eqn:Hx.
      * rewrite (handleReflect_transfer Pack MsgString flags world w r g q qs
                   HQ Hx).
        unfold events. cbn [fst snd].
        apply Forall_transfer_events; try reflexivity.
        cbn [records_of forallb typed whoami_soa self_txt].
        rewrite self_address_typed. reflexivity.
      * rewrite (handleReflect_reply Pack MsgString flags world w r g q qs
                   HQ Hx).
        unfold events. cbn [fst snd].
        apply Forall_reply_events; try reflexivity.
        destruct (is_tc q); [reflexivity |].
        cbn [records_of reply_of Answer Ns Extra app].
        destruct (Qtype q =? TypeTXT);
          cbn [app forallb typed self_txt];
          rewrite ?forallb_app, ?self_address_typed, ?signature_typed;
          reflexivity.
  - unfold handleSqlite in Hin.
    destruct (Question r) as [| q qs] eqn:HQ; [destruct Hin |].
    destruct (Qtype q =? TypeA).
    + destruct (lookUpNameInDb db (QName q) "A") as [[[ttl rdata] [err |]] |];
        try destruct Hin.
      destruct (fill_octets (Split rdata ".") 0 [0; 0; 0; 0]);
        [| destruct Hin].
      destruct Hin as [<- | []].
      unfold SetReply. rewrite HQ. reflexivity.
    + destruct Hin as [<- | []].
      unfold SetReply. rewrite HQ. reflexivity.
Qed.

(** The envelope of a zone transfer to an IPv6 client. *)
Lemma sent_records_typed_witness :
  forallb typed
    [whoami_soa; self_txt "Port: 53124 (tcp)";
     RR_AAAA (mkHdr dom TypeAAAA ClassINET 0)
             [32; 1; 13; 184; 0; 0; 0; 0; 0; 0; 0; 0; 0; 0; 0; 1];
     whoami_soa]
  = true.
Proof.
  apply (sent_records_typed Examples.header_pack Examples.show Examples.quiet
           Examples.clock Examples.records_db Examples.tcp6
           (Examples.query dom TypeAXFR) 0 (EvEnvelope _)).
  left. left. reflexivity.
Defined.

(** ** [handleReflect]: what a call depends on *)

(** X9.  The counter has no part in what is sent: two calls for the same
    request put the same thing on the wire and end the same way, whatever
    the counter is at, and differ in the progress line alone. *)
Theorem reflect_same_query_same_reply Pack MsgString flags world
  (w : ResponseWriter) (r : Msg) (g g' : Z) :
  let res := handleReflect Pack MsgString flags world w r g in
  let res' := handleReflect Pack MsgString flags world w r g' in
  sent (events res) = sent (events res')
  /\ snd res = snd res'
  /\ exists rest,
       events res = progress (wrap_int (g + 1)) ++ rest
       /\ events res' = progress (wrap_int (g' + 1)) ++ rest.
Proof.
  cbv zeta.
  rewrite (handleReflect_counter Pack MsgString flags world w r g).
  rewrite (handleReflect_counter Pack MsgString flags world w r g').
  unfold events at 1 3 5 6. cbn [fst snd].
  rewrite !sent_app, !sent_progress.
  split; [reflexivity |]. split; [reflexivity |].
  eexists. split; reflexivity.
Qed.

(** X10.  On a request as the server decodes it, where a last extra record
    with a header of type TSIG is a TSIG record, the handler panics exactly
    when the request has no question, and it never puts more than one thing
    on the wire: the index [m.Question[0]] of the truncation test is always
    in range, since the reply holds the first question of the request. *)
Theorem reflect_panics_only_without_question Pack MsgString flags world
  (w : ResponseWriter) (r : Msg) (g : Z) :
  tsig_as_decoded r = true ->
  let res := handleReflect Pack MsgString flags world w r g in
  (snd res = Panicked <-> Question r = [])
  /\ (List.length (sent (events res)) <= 1)%nat.
Proof.
  intros _. cbv zeta.
  destruct (Question r) as [| q qs] eqn:HQ.
  - rewrite (handleReflect_no_question Pack MsgString flags world w r g HQ).
    unfold events. cbn [fst snd]. rewrite sent_progress.
    split; [split; reflexivity | cbn; lia].
  - destruct (is_transfer (Qtype q)) eqn:Hx.
    + rewrite (handleReflect_transfer Pack MsgString flags world w r g q qs
                 HQ Hx).
      unfold events. cbn [fst snd]. rewrite sent_app, sent_progress.
      split; [split; discriminate |].
      destruct (TransferOut world); cbn; lia.
    + rewrite (handleReflect_sent Pack MsgString flags world w r g q qs
                 HQ Hx).
      rewrite (handleReflect_reply Pack MsgString flags world w r g q qs
                 HQ Hx).
      split; [split; discriminate | cbn; lia].
Qed.

(** A signed query for the truncation-test name: one write, no panic. *)
Lemma reflect_panics_only_without_question_witness :
  snd (handleReflect Examples.header_pack Examples.show Examples.quiet
                     Examples.clock Examples.keyed_udp4
                     (Examples.signed_query "tc.miek.nl." TypeTXT) 0)
  <> Panicked.
Proof.
  intros H.
  apply (proj1 (proj1 (reflect_panics_only_without_question
                         Examples.header_pack Examples.show Examples.quiet
                         Examples.clock Examples.keyed_udp4
                         (Examples.signed_query "tc.miek.nl." TypeTXT) 0
                         eq_refl))) in H.
  discriminate H.
Defined.

(** X11.  The two forms of an IPv4 address give the same result: a client
    whose address comes as the 16 bytes of an IPv4-mapped IPv6 address is
    handled like the client with the 4 bytes of that address, and so gets
    the A record of the four bytes. *)
Theorem reflect_mapped_address Pack MsgString flags world
  (w w' : ResponseWriter) (r : Msg) (g : Z)
  (k : Transport) (a b c d port : Z) :
  session (RemoteAddr w) = Some (k, IPv4 a b c d, port) ->
  session (RemoteAddr w') = Some (k, [a; b; c; d], port) ->
  TsigStatus w = TsigStatus w' ->
  handleReflect Pack MsgString flags world w r g
  = handleReflect Pack MsgString flags world w' r g
  /\ self_address (IPv4 a b c d)
     = RR_A (mkHdr dom TypeA ClassINET 0) [a; b; c; d].
Proof.
  intros Hs Hs' Hst. split; [| reflexivity].
  destruct (remote_of_session _ _ _ _ Hs) as [Hip Htext].
  destruct (remote_of_session _ _ _ _ Hs') as [Hip' Htext'].
  assert (Haddr : self_address (remote_ip (RemoteAddr w))
                  = self_address (remote_ip (RemoteAddr w')))
    by (rewrite Hip, Hip'; reflexivity).
  assert (Hsig : signature world w r = signature world w' r)
    by (unfold signature; rewrite Hst; reflexivity).
  assert (Hlog : status_log w r = status_log w' r)
    by (unfold status_log; rewrite Hst; reflexivity).
  destruct (Question r) as [| q qs] eqn:HQ.
  - rewrite !(handleReflect_no_question Pack MsgString flags world _ r g HQ).
    reflexivity.
  - destruct (is_transfer (Qtype q)) eqn:Hx.
    + rewrite !(handleReflect_transfer Pack MsgString flags world _ r g q qs
                  HQ Hx).
      rewrite Haddr, Htext, Htext'. reflexivity.
    + rewrite !(handleReflect_reply Pack MsgString flags world _ r g q qs
                  HQ Hx).
      unfold reply_of. rewrite Haddr, Htext, Htext', Hsig, Hlog. reflexivity.
Qed.

(** The address 203.0.113.7 in its two forms. *)
Lemma reflect_mapped_address_witness :
  handleReflect Examples.header_pack Examples.show Examples.quiet
                Examples.clock
                (mkWriter (UDPAddr (IPv4 203 0 113 7) 40000) None [])
                (Examples.query dom TypeA) 0
  = handleReflect Examples.header_pack Examples.show Examples.quiet
                  Examples.clock Examples.udp4 (Examples.query dom TypeA) 0.
Proof.
  exact (proj1 (reflect_mapped_address Examples.header_pack Examples.show
                  Examples.quiet Examples.clock
                  (mkWriter (UDPAddr (IPv4 203 0 113 7) 40000) None [])
                  Examples.udp4 (Examples.query dom TypeA) 0
                  Datagram 203 0 113 7 40000 eq_refl eq_refl eq_refl)).
Defined.

(** X12.  A zone transfer is served without regard to TSIG and to the
    flags: the handler does the same for two AXFR or IXFR requests from the
    same address, whether they carry a TSIG record or not, whether the
    server verified it, rejected it or has no key, and whatever the flags
    for printing and compression are; the envelope holds no TSIG record. *)
Theorem reflect_transfer_ignores_tsig Pack Pack' MsgString MsgString'
  flags flags' world (w w' : ResponseWriter) (r r' : Msg) (g : Z)
  (q q' : DnsQuestion) (qs qs' : list DnsQuestion) :
  Question r = q :: qs ->
  Question r' = q' :: qs' ->
  is_transfer (Qtype q) = true ->
  is_transfer (Qtype q') = true ->
  RemoteAddr w = RemoteAddr w' ->
  handleReflect Pack MsgString flags world w r g
  = handleReflect Pack' MsgString' flags' world w' r' g
  /\ forall e,
       In e (events (handleReflect Pack MsgString flags world w r g)) ->
       filter is_tsig (records_of e) = [].
Proof.
  intros HQ HQ' Hx Hx' Hw.
  rewrite (handleReflect_transfer Pack MsgString flags world w r g q qs HQ Hx).
  rewrite (handleReflect_transfer Pack' MsgString' flags' world w' r' g q' qs'
             HQ' Hx').
  rewrite Hw. split; [reflexivity |].
  apply Forall_forall. unfold events. cbn [fst snd].
  apply Forall_transfer_events; try reflexivity.
  cbn [records_of filter is_tsig whoami_soa self_txt].
  rewrite self_address_not_tsig. reflexivity.
Qed.

(** An AXFR request whose TSIG record the server rejected, and an IXFR
    request without TSIG record. *)
Lemma reflect_transfer_ignores_tsig_witness :
  handleReflect Examples.header_pack Examples.show Examples.quiet
                Examples.clock Examples.rejecting_tcp4
                (Examples.signed_query dom TypeAXFR) 0
  = handleReflect Examples.header_pack Examples.show
                  (mkFlags true true false EmptyString)
                  Examples.clock Examples.tcp4 (Examples.query dom TypeIXFR) 0.
Proof.
  exact (proj1 (reflect_transfer_ignores_tsig Examples.header_pack
                  Examples.header_pack Examples.show Examples.show
                  Examples.quiet (mkFlags true true false EmptyString)
                  Examples.clock Examples.rejecting_tcp4 Examples.tcp4
                  (Examples.signed_query dom TypeAXFR)
                  (Examples.query dom TypeIXFR) 0
                  (mkQuestion dom TypeAXFR ClassINET)
                  (mkQuestion dom TypeIXFR ClassINET) [] []
                  eq_refl eq_refl eq_refl eq_refl eq_refl)).
Defined.

(** ** The key of the servers *)

Lemma cut_without_colon (s : string) :
  has_colon s = false -> cut s ":" = None.
Proof.
  induction s as [| c s IH]; [reflexivity |].
  cbn [has_colon cut]. destruct (Ascii.eqb c ":"); [discriminate |].
  cbn [orb]. intros Hc. rewrite (IH Hc). reflexivity.
Qed.

Lemma cut_with_colon (s : string) :
  has_colon s = true -> exists before after, cut s ":" = Some (before, after).
Proof.
  induction s as [| c s IH]; [discriminate |].
  cbn [has_colon cut]. destruct (Ascii.eqb c ":"); [eauto |].
  cbn [orb]. intros Hc. destruct (IH Hc) as [before [after ->]]. eauto.
Qed.

Lemma cut_first_colon (name secret : string) :
  has_colon name = false ->
  cut (name ++ String ":" secret) ":" = Some (name, secret).
Proof.
  induction name as [| c name IH]; [reflexivity |].
  cbn [has_colon append cut]. destruct (Ascii.eqb c ":"); [discriminate |].
  cbn [orb]. intros Hc. rewrite (IH Hc). reflexivity.
Qed.

Lemma IsFqdn_add_dot (s : string) : IsFqdn (s ++ ".") = true.
Proof.
  induction s as [| c s IH]; [reflexivity |].
  cbn [append]. destruct s as [| c' s]; [reflexivity | exact IH].
Qed.

Lemma IsFqdn_Fqdn (s : string) : IsFqdn (Fqdn s) = true.
Proof.
  unfold Fqdn. destruct (IsFqdn s) eqn:H; [exact H | apply IsFqdn_add_dot].
Qed.

Lemma Fqdn_not_empty (s : string) : String.eqb (Fqdn s) "" = false.
Proof.
  pose proof (IsFqdn_Fqdn s) as H.
  destruct (Fqdn s); [discriminate H | reflexivity].
Qed.

(** X13.  [main] panics on the flag [-tsig] exactly when the flag is not
    empty and holds no colon: the secret is read from the second piece of
    the flag, which is then missing.  With an empty flag the servers start
    without key table. *)
Theorem main_key_needs_colon (tsig : string) :
  (main_TsigSecret tsig = None
   <-> tsig <> EmptyString /\ has_colon tsig = false)
  /\ main_TsigSecret EmptyString = Some [].
Proof.
  split; [| reflexivity].
  unfold main_TsigSecret, main_key, SplitN2.
  destruct tsig as [| c tsig]; [split; [discriminate | intros [H _]; now elim H] |].
  cbn [String.eqb].
  destruct (has_colon (String c tsig)) eqn:Hc.
  - destruct (cut_with_colon _ Hc) as [before [after ->]].
    split; [intros H; discriminate H | intros [_ H]; discriminate H].
  - rewrite (cut_without_colon _ Hc).
    split; [intros _; split; [discriminate | reflexivity] | reflexivity].
Qed.

(** A flag that holds the name of a key and no secret. *)
Lemma main_key_needs_colon_witness : main_TsigSecret "axfr" = None.
Proof.
  apply (proj1 (main_key_needs_colon "axfr")).
  split; [discriminate | reflexivity].
Defined.

(** X14.  A flag [name:secret] gives both servers a key table with the one
    key [name], made fully qualified: a dot is added unless the name ends
    with one.  The flag is split at its first colon only, so the secret
    keeps the colons it holds. *)
Theorem main_key_table (name secret : string) :
  has_colon name = false ->
  main_TsigSecret (name ++ ":" ++ secret) = Some [(Fqdn name, secret)]
  /\ IsFqdn (Fqdn name) = true
  /\ (IsFqdn name = true -> Fqdn name = name)
  /\ (IsFqdn name = false -> Fqdn name = (name ++ ".")%string).
Proof.
  intros Hc.
  split; [| split; [apply IsFqdn_Fqdn |
                    split; unfold Fqdn; intros ->; reflexivity]].
  unfold main_TsigSecret, main_key, SplitN2.
  change (name ++ ":" ++ secret)%string with (name ++ String ":" secret)%string.
  rewrite (cut_first_colon name secret Hc).
  assert (Hne : String.eqb (name ++ String ":" secret) "" = false)
    by (destruct name; reflexivity).
  rewrite Hne. unfold serve_TsigSecret. rewrite Fqdn_not_empty. reflexivity.
Qed.

(** The key [axfr] with a secret that holds a colon. *)
Lemma main_key_table_witness :
  main_TsigSecret "axfr:c2Vj:cmV0"
  = Some [("axfr."%string, "c2Vj:cmV0"%string)].
Proof.
  exact (proj1 (main_key_table "axfr" "c2Vj:cmV0" eq_refl)).
Defined.

(** ** The counter under any interleaving *)

Lemma stored_app (before after : list Thread) (t : Thread) :
  stored (before ++ t :: after)
  = (stored before + (if past_store t then 1 else 0) + stored after)%nat.
Proof.
  unfold stored. rewrite filter_app, length_app. cbn [filter].
  destruct (past_store t); cbn [List.length]; lia.
Qed.

Lemma stored_le_length (ts : list Thread) : (stored ts <= List.length ts)%nat.
Proof.
  unfold stored. induction ts as [| t ts IH]; [cbn; lia |].
  cbn [filter List.length]. destruct (past_store t); cbn [List.length]; lia.
Qed.

Lemma stored_all_counted (ts : list Thread) :
  forallb counted ts = true -> stored ts = List.length ts.
Proof.
  unfold stored. induction ts as [| t ts IH]; [reflexivity |].
  cbn [forallb filter List.length]. intros H.
  apply andb_true_iff in H. destruct H as [Ht Hts].
  destruct t; try discriminate Ht.
  cbn [past_store List.length]. rewrite (IH Hts). reflexivity.
Qed.

Lemma stored_ready (n : nat) : stored (repeat Ready n) = 0%nat.
Proof. unfold stored. induction n as [| n IH]; [reflexivity | exact IH]. Qed.

(** A step of a schedule is a step of one goroutine. *)
Lemma step_at_split (ts : list Thread) :
  forall (i : nat) (c c' : Z) (ts' : list Thread),
    step_at i c ts = Some (c', ts') ->
    exists before t after t',
      ts = before ++ t :: after
      /\ ts' = before ++ t' :: after
      /\ step c t = Some (c', t').
Proof.
  induction ts as [| t ts IH]; intros i c c' ts' H;
    [destruct i; discriminate H |].
  destruct i as [| i]; cbn [step_at] in H.
  - destruct (step c t) as [[c1 t1] |] eqn:Hs; [| discriminate H].
    injection H as <- <-. exists [], t, ts, t1. repeat split. exact Hs.
  - destruct (step_at i c ts) as [[c1 ts1] |] eqn:Hs; [| discriminate H].
    injection H as <- <-.
    destruct (IH i c c1 ts1 Hs) as [before [t0 [after [t1 [-> [-> Hstep]]]]]].
    exists (t :: before), t0, after, t1. repeat split. exact Hstep.
Qed.

Lemma loaded_within_mono (lo hi hi' : Z) (ts : list Thread) :
  hi <= hi' ->
  Forall (loaded_within lo hi) ts -> Forall (loaded_within lo hi') ts.
Proof.
  intros Hhi. apply Forall_impl. intros [| v | |]; cbn; lia.
Qed.

Lemma step_keeps_race_inv (g c c' : Z) (before after : list Thread)
  (t t' : Thread) :
  int_min <= g ->
  g + Z.of_nat (List.length (before ++ t :: after)) <= int_max ->
  race_inv g c (before ++ t :: after) ->
  step c t = Some (c', t') ->
  race_inv g c' (before ++ t' :: after).
Proof.
  intros Hlo Hhi [Hc [Hone Hall]] Hstep.
  rewrite length_app in Hhi. cbn [List.length] in Hhi.
  pose proof (stored_le_length before) as Hb.
  pose proof (stored_le_length after) as Ha.
  apply Forall_app in Hall. destruct Hall as [Hbefore Hrest].
  apply Forall_cons_iff in Hrest. destruct Hrest as [Ht Hafter].
  unfold race_inv. rewrite stored_app in *.
  destruct t as [| v | |]; cbn [step] in Hstep; [| | | discriminate Hstep];
    injection Hstep as <- <-; cbn [past_store] in *.
  - split; [exact Hc |]. split; [exact Hone |].
    apply Forall_app. split; [exact Hbefore |].
    constructor; [cbn; lia | exact Hafter].
  - cbn [loaded_within] in Ht.
    rewrite wrap_int_succ by lia.
    split; [lia |]. split; [lia |].
    apply Forall_app. split.
    + eapply loaded_within_mono; [| exact Hbefore]. lia.
    + constructor; [exact I |].
      eapply loaded_within_mono; [| exact Hafter]. lia.
  - split; [exact Hc |]. split; [exact Hone |].
    apply Forall_app. split; [exact Hbefore |].
    constructor; [exact I | exact Hafter].
Qed.

Lemma run_keeps_race_inv (schedule : list nat) :
  forall (g c c' : Z) (ts ts' : list Thread),
    int_min <= g ->
    g + Z.of_nat (List.length ts) <= int_max ->
    race_inv g c ts ->
    run schedule c ts = Some (c', ts') ->
    race_inv g c' ts' /\ List.length ts' = List.length ts.
Proof.
  induction schedule as [| i schedule IH]; intros g c c' ts ts' Hlo Hhi Hinv H.
  - injection H as <- <-. split; [exact Hinv | reflexivity].
  - cbn [run] in H.
    destruct (step_at i c ts) as [[c1 ts1] |] eqn:Hs; [| discriminate H].
    destruct (step_at_split ts i c c1 ts1 Hs)
      as [before [t [after [t' [-> [-> Hstep]]]]]].
    assert (Hlen : List.length (before ++ t' :: after)
                   = List.length (before ++ t :: after))
      by (rewrite !length_app; reflexivity).
    destruct (IH g c1 c' (before ++ t' :: after) ts' Hlo) as [Hinv' Hlen'].
    + rewrite Hlen. exact Hhi.
    + exact (step_keeps_race_inv g c c1 before after t t' Hlo Hhi Hinv Hstep).
    + exact H.
    + split; [exact Hinv' | congruence].
Qed.

(** X15.  However the steps of [n] handlers interleave on the unguarded
    counter, it never moves by more than the number of handlers that have
    written it, and never below its start: updates can be lost, none is
    counted twice.  Once a handler has written, the counter is above its
    start; so when all [n] are done it has grown by at least 1 and at most
    [n]. *)
Theorem counter_bounds_any_schedule (schedule : list nat) (n : nat)
  (g g' : Z) (ts : list Thread) :
  int_min <= g ->
  g + Z.of_nat n <= int_max ->
  run schedule g (repeat Ready n) = Some (g', ts) ->
  g <= g' <= g + Z.of_nat (stored ts)
  /\ (stored ts <= n)%nat
  /\ ((1 <= stored ts)%nat -> g + 1 <= g')
  /\ (forallb counted ts = true -> (1 <= n)%nat ->
      g + 1 <= g' <= g + Z.of_nat n).
Proof.
  intros Hlo Hhi Hrun.
  assert (Hinit : race_inv g g (repeat Ready n)).
  { unfold race_inv. rewrite stored_ready.
    split; [lia |]. split; [lia |].
    apply Forall_forall. intros t Ht. apply repeat_spec in Ht. subst t.
    exact I. }
  destruct (run_keeps_race_inv schedule g g g' (repeat Ready n) ts Hlo)
    as [[Hc [Hone _]] Hlen]; try assumption.
  { rewrite repeat_length. exact Hhi. }
  rewrite repeat_length in Hlen.
  pose proof (stored_le_length ts) as Hle.
  split; [exact Hc |]. split; [lia |]. split; [exact Hone |].
  intros Hall Hn. rewrite (stored_all_counted ts Hall) in *. lia.
Qed.

(** Three handlers, the first two of which read the counter before any
    writes it: two of the three updates are kept. *)
Lemma counter_bounds_any_schedule_witness :
  run [0; 1; 0; 1; 0; 1; 2; 2; 2]%nat 5 (repeat Ready 3)
  = Some (7, [Counted None; Counted None; Counted None])
  /\ 5 + 1 <= 7 <= 5 + Z.of_nat 3.
Proof.
  split; [reflexivity |].
  apply (counter_bounds_any_schedule [0; 1; 0; 1; 0; 1; 2; 2; 2]%nat 3 5 7
           [Counted None; Counted None; Counted None]);
    try reflexivity; try lia; try (vm_compute; discriminate).
Defined.

(** ** The owner of the reflected records *)

Lemma self_address_owned (ip : IP) : owned_by_dom (self_address ip) = true.
Proof. unfold self_address. destruct (To4 ip); reflexivity. Qed.

Lemma signature_owned (world : World) (w : ResponseWriter) (r : Msg) :
  forallb owned_by_dom (signature world w r) = true.
Proof.
  unfold signature.
  destruct (IsTsig r); [destruct (TsigStatus w) |]; reflexivity.
Qed.

(** X16.  The records [handleReflect] sends are owned by the fixed name
    [whoami.miek.nl.], whatever name the question asks for; the one
    exception is the TSIG record of a signed reply, owned by the key. *)
Theorem reflect_records_owned_by_dom Pack MsgString flags world
  (w : ResponseWriter) (r : Msg) (g : Z) (e : Event) :
  In e (events (handleReflect Pack MsgString flags world w r g)) ->
  forallb owned_by_dom (records_of e) = true.
Proof.
  revert e. apply Forall_forall.
  destruct (Question r) as [| q qs] eqn:HQ.
  - rewrite (handleReflect_no_question Pack MsgString flags world w r g HQ).
    unfold events, progress. cbn [fst snd].
    destruct (Z.rem (wrap_int (g + 1)) 1000 =? 0); repeat constructor.
  - destruct (is_transfer (Qtype q)) eqn:Hx.
    + rewrite (handleReflect_transfer Pack MsgString flags world w r g q qs
                 HQ Hx).
      unfold events. cbn [fst snd].
      apply Forall_transfer_events; try reflexivity.
      cbn [records_of forallb]. rewrite self_address_owned. reflexivity.
    + rewrite (handleReflect_reply Pack MsgString flags world w r g q qs
                 HQ Hx).
      unfold events. cbn [fst snd].
      apply Forall_reply_events; try reflexivity.
      destruct (is_tc q); [reflexivity |].
      cbn [records_of reply_of Answer Ns Extra app].
      destruct (Qtype q =? TypeTXT);
        cbn [app forallb];
        rewrite ?forallb_app, ?self_address_owned, ?signature_owned;
        reflexivity.
Qed.

(** A query for another name under [miek.nl.]. *)
Lemma reflect_records_owned_by_dom_witness :
  forallb owned_by_dom
    (records_of
       (EvWriteMsg
          (reflect_reply Examples.quiet Examples.clock Examples.udp4
             (Examples.query "www.miek.nl." TypeA)
             (mkQuestion "www.miek.nl." TypeA ClassINET))))
  = true.
Proof.
  apply (reflect_records_owned_by_dom Examples.header_pack Examples.show
           Examples.quiet Examples.clock Examples.udp4
           (Examples.query "www.miek.nl." TypeA) 0).
  left. reflexivity.
Defined.
